(** * Map-services assistant: routing and orchestration

    A shallow embedding of the deterministic router and per-server tool
    wrappers of [agent.py] (class [AssistantAgent]) and of the tool
    dispatcher and chat loop of [interactive_agent.py] (class
    [InteractiveAgent]), followed by the properties of these functions.

    Conventions of the embedding.
    - A Python [str] whose code points are all below 256 is a [string], one
      [ascii] per code point.
    - A Python exception that derives from [Exception] is represented by its
      message [str(e)].  [KeyboardInterrupt], [SystemExit] and task
      cancellation, which [except Exception] lets through, are not modelled.
    - Output written with [print] is not modelled.
    - The three servers and the language model are external: they are
      parameters of the embedding. *)

From Stdlib Require Import Bool Ascii String List ZArith Lia DecimalString.
Import ListNotations.

Local Open Scope string_scope.
Local Open Scope list_scope.

Set Implicit Arguments.

(** ** Python [str] operations *)

Module PyStr.

Definition code (c : ascii) : nat := nat_of_ascii c.

Definition between (lo hi : nat) (c : ascii) : bool :=
  (lo <=? code c)%nat && (code c <=? hi)%nat.

(** [c.lower()] for one code point below 256: the ASCII capitals and the
    Latin-1 capitals (all of U+00C0..U+00DE but the multiplication sign)
    move up by 32. *)
Definition lower_char (c : ascii) : ascii :=
  if between 65 90 c || (between 192 222 c && negb (code c =? 215)%nat)
  then ascii_of_nat (code c + 32)
  else c.

(** [s.lower()] *)
Fixpoint lower (s : string) : string :=
  match s with
  | EmptyString => EmptyString
  | String c s' => String (lower_char c) (lower s')
  end.

(** [c.isspace()], which is also the class [\s] of [re] on [str]. *)
Definition isspace (c : ascii) : bool :=
  between 9 13 c || between 28 32 c || (code c =? 133)%nat
  || (code c =? 160)%nat.

(** The class [\d] of [re] on [str]: decimal digits. *)
Definition isdecimal (c : ascii) : bool := between 48 57 c.

(** [c.isdigit()]: decimal digits and the superscript digits of Latin-1. *)
Definition isdigit (c : ascii) : bool :=
  isdecimal c || (code c =? 178)%nat || (code c =? 179)%nat
  || (code c =? 185)%nat.

(** [s.startswith(p)] *)
Fixpoint startswith (s p : string) : bool :=
  match p, s with
  | EmptyString, _ => true
  | String a p', String b s' => Ascii.eqb a b && startswith s' p'
  | String _ _, EmptyString => false
  end.

(** [p in s] *)
Fixpoint contains (p s : string) : bool :=
  startswith s p
  || match s with
     | EmptyString => false
     | String _ s' => contains p s'
     end.

(** [s[n:]] *)
Fixpoint drop (n : nat) (s : string) : string :=
  match n, s with
  | O, _ => s
  | S n', String _ s' => drop n' s'
  | S _, EmptyString => EmptyString
  end.

(** [s.index(p)]: the least offset at which [p] occurs; [ValueError] when
    there is none. *)
Fixpoint index (p s : string) : option nat :=
  if startswith s p then Some O
  else match s with
       | EmptyString => None
       | String _ s' => option_map S (index p s')
       end.

Fixpoint lstrip (s : string) : string :=
  match s with
  | EmptyString => EmptyString
  | String c s' => if isspace c then lstrip s' else s
  end.

Fixpoint rstrip (s : string) : string :=
  match s with
  | EmptyString => EmptyString
  | String c s' =>
      match rstrip s' with
      | EmptyString => if isspace c then EmptyString else String c EmptyString
      | r => String c r
      end
  end.

(** [s.strip()] *)
Definition strip (s : string) : string := rstrip (lstrip s).

(** [any(c.isdigit() for c in s)] *)
Fixpoint any_char (p : ascii -> bool) (s : string) : bool :=
  match s with
  | EmptyString => false
  | String c s' => p c || any_char p s'
  end.

Fixpoint all_char (p : ascii -> bool) (s : string) : bool :=
  match s with
  | EmptyString => true
  | String c s' => p c && all_char p s'
  end.

(** [any(w in s for w in words)] *)
Definition any_in (words : list string) (s : string) : bool :=
  existsb (fun w => contains w s) words.

End PyStr.

(** ** The fragment of [re] the source patterns are written in

    A pattern is a sequence of items: a character class taken once, optionally
    ([?]), greedily any number of times ([*], [+]) or lazily ([+?]), and the
    parentheses of a capturing group.  Matching backtracks as [re] does:
    greedy items try the longest run first, lazy ones the shortest. *)

Module Re.

Inductive item : Type :=
| One (p : ascii -> bool)
| Opt (p : ascii -> bool)
| Star (p : ascii -> bool)
| Plus (p : ascii -> bool)
| LazyPlus (p : ascii -> bool)
| Open (g : nat)
| Close (g : nat).

Definition pattern := list item.

(** A successful match is the list of the texts its items consumed, one per
    item. *)
Definition segments := list string.

Definition push (c : ascii) (r : option segments) : option segments :=
  match r with
  | Some (seg :: segs) => Some (String c seg :: segs)
  | _ => None
  end.

Definition empty_then (r : option segments) : option segments :=
  option_map (cons EmptyString) r.

Definition orelse (r : option segments) (alt : option segments)
  : option segments :=
  match r with
  | Some _ => r
  | None => alt
  end.

Section Items.
Variable p : ascii -> bool.
(** What the rest of the pattern does on the remaining text. *)
Variable k : string -> option segments.

Definition one (s : string) : option segments :=
  match s with
  | String c s' => if p c then option_map (cons (String c EmptyString)) (k s')
                   else None
  | EmptyString => None
  end.

Definition opt (s : string) : option segments :=
  orelse (one s) (empty_then (k s)).

Fixpoint star (s : string) : option segments :=
  match s with
  | String c s' =>
      if p c then orelse (push c (star s')) (empty_then (k s))
      else empty_then (k s)
  | EmptyString => empty_then (k s)
  end.

Definition plus (s : string) : option segments :=
  match s with
  | String c s' => if p c then push c (star s') else None
  | EmptyString => None
  end.

Fixpoint lazy_star (s : string) : option segments :=
  orelse (empty_then (k s))
    match s with
    | String c s' => if p c then push c (lazy_star s') else None
    | EmptyString => None
    end.

Definition lazy_plus (s : string) : option segments :=
  match s with
  | String c s' => if p c then push c (lazy_star s') else None
  | EmptyString => None
  end.
End Items.

(** [pattern.match(s)]: match at the start of [s]. *)
Fixpoint match_here (pat : pattern) : string -> option segments :=
  match pat with
  | [] => fun _ => Some []
  | it :: rest =>
      let k := match_here rest in
      match it with
      | One p => one p k
      | Opt p => opt p k
      | Star p => star p k
      | Plus p => plus p k
      | LazyPlus p => lazy_plus p k
      | Open _ | Close _ => fun s => empty_then (k s)
      end
  end.

(** [pattern.search(s)]: the match at the leftmost position that has one. *)
Fixpoint search (pat : pattern) (s : string) : option segments :=
  orelse (match_here pat s)
    match s with
    | EmptyString => None
    | String _ s' => search pat s'
    end.

Definition matched_length (segs : segments) : nat :=
  String.length (String.concat EmptyString segs).

(** [pattern.findall(s)], for a pattern that never matches the empty text:
    the matches found from left to right, each search resuming where the
    previous match ended.  [skip] counts the characters of the last match
    that are still ahead. *)
Fixpoint findall_from (pat : pattern) (skip : nat) (s : string)
  : list segments :=
  match skip with
  | S skip' =>
      match s with
      | EmptyString => []
      | String _ s' => findall_from pat skip' s'
      end
  | O =>
      match match_here pat s with
      | Some segs =>
          segs :: match s with
                  | EmptyString => []
                  | String _ s' =>
                      findall_from pat (pred (matched_length segs)) s'
                  end
      | None =>
          match s with
          | EmptyString => []
          | String _ s' => findall_from pat O s'
          end
      end
  end.

Definition findall (pat : pattern) (s : string) : list segments :=
  findall_from pat O s.

(** [match.group(g)]: the text between the parentheses of group [g]. *)
Fixpoint group_from (g : nat) (inside : bool) (pat : pattern)
  (segs : segments) : string :=
  match pat, segs with
  | it :: pat', seg :: segs' =>
      match it with
      | Open g' => group_from g (inside || (g' =? g)%nat) pat' segs'
      | Close g' => group_from g (inside && negb (g' =? g)%nat) pat' segs'
      | _ => (if inside then seg else EmptyString)
             ++ group_from g inside pat' segs'
      end
  | _, _ => EmptyString
  end.

Definition group (pat : pattern) (segs : segments) (g : nat) : string :=
  group_from g false pat segs.

(** Classes and literals. *)
Definition chr (c : ascii) : ascii -> bool := Ascii.eqb c.
Definition dot (c : ascii) : bool := negb (Ascii.eqb c "010"%char).
Definition either (p q : ascii -> bool) (c : ascii) : bool := p c || q c.

Fixpoint lit (s : string) : pattern :=
  match s with
  | EmptyString => []
  | String c s' => One (chr c) :: lit s'
  end.

End Re.

(** ** Python values, exceptions and conversions *)

(** The values that travel between router, dispatcher, servers and model:
    what [json] can carry.  A [dict] keeps its items in insertion order. *)
#[warnings="-register-all"]
Inductive pyval : Type :=
| VNone
| VBool (b : bool)
| VInt (z : Z)
| VFloat (literal : string)   (* the float written [literal]: [float(literal)] *)
| VStr (s : string)
| VList (l : list pyval)
| VDict (items : list (string * pyval)).

(** The outcome of evaluating an expression: a value, or a raised exception
    given by its message [str(e)]. *)
Inductive exc (A : Type) : Type :=
| Ok (a : A)
| Raise (msg : string).

Arguments Ok {A} a.
Arguments Raise {A} msg.

Module Exc.

Definition bind {A B : Type} (m : exc A) (f : A -> exc B) : exc B :=
  match m with
  | Ok a => f a
  | Raise msg => Raise msg
  end.

Definition of_option {A : Type} (msg : string) (o : option A) : exc A :=
  match o with
  | Some a => Ok a
  | None => Raise msg
  end.

End Exc.

Declare Scope exc_scope.
Delimit Scope exc_scope with exc.
Notation "x <- m ;; f" := (Exc.bind m (fun x => f))
  (at level 61, m at next level, right associativity) : exc_scope.

Module Py.

(** [repr(k)] of a key made of letters, digits and underscores, which is
    what [str(KeyError(k))] shows. *)
Definition repr (k : string) : string := "'" ++ k ++ "'".

Fixpoint assoc (k : string) (items : list (string * pyval)) : option pyval :=
  match items with
  | [] => None
  | (k', v) :: rest => if String.eqb k' k then Some v else assoc k rest
  end.

(** [d[k]]: [KeyError] on a [dict] without the key, [TypeError] on a value
    that has no string subscripts. *)
Definition getitem (d : pyval) (k : string) : exc pyval :=
  match d with
  | VDict items => Exc.of_option (repr k) (assoc k items)
  | VList _ => Raise "list indices must be integers or slices, not str"
  | VStr _ => Raise "string indices must be integers, not 'str'"
  | _ => Raise "object is not subscriptable"
  end.

(** [l[i]] on a list: [IndexError] past the end. *)
Definition item {A : Type} (l : list A) (i : nat) : exc A :=
  Exc.of_option "list index out of range" (nth_error l i).

Fixpoint skip_decimals (s : string) : string :=
  match s with
  | String c s' => if PyStr.isdecimal c then skip_decimals s' else s
  | EmptyString => EmptyString
  end.

Definition unsigned (s : string) : string :=
  match s with
  | String c s' =>
      if Ascii.eqb c "-"%char || Ascii.eqb c "+"%char then s' else s
  | EmptyString => s
  end.

(** Plain decimal literals: a sign, then digits with an optional point and
    fraction, or a point and a fraction. *)
Definition float_literal (s : string) : bool :=
  let body := unsigned s in
  let after_int := skip_decimals body in
  let has_int := negb (String.length after_int =? String.length body)%nat in
  match after_int with
  | EmptyString => has_int
  | String c frac =>
      Ascii.eqb c "."%char
      && (String.length (skip_decimals frac) =? 0)%nat
      && (has_int || negb (String.length frac =? 0)%nat)
  end.

(** [float(s)] on the plain decimal literals; every other text counts as a
    [ValueError] here, also the further forms Python reads (exponents,
    [inf], [nan], padding, underscores). *)
Definition float (s : string) : exc pyval :=
  if float_literal s then Ok (VFloat s)
  else Raise ("could not convert string to float: " ++ repr s).

Definition digit_value (c : ascii) : Z := Z.of_nat (PyStr.code c) - 48.

Fixpoint decimal_value (acc : Z) (s : string) : Z :=
  match s with
  | EmptyString => acc
  | String c s' => decimal_value (10 * acc + digit_value c) s'
  end.

(** [int(s)] on the non-empty texts of decimal digits, of any length (the
    interpreter's configurable limit on the number of digits of such a text
    is not modelled); every other text counts as a [ValueError] here. *)
Definition int (s : string) : exc pyval :=
  if PyStr.all_char PyStr.isdecimal s && negb (String.length s =? 0)%nat
  then Ok (VInt (decimal_value 0 s))
  else Raise ("invalid literal for int() with base 10: " ++ repr s).

End Py.

(** ** [agent.py]: the argument extractors and the router *)

Module Router.

Import Re.
Local Open Scope exc_scope.

(** The coordinate pattern of [_route_query] and [_extract_coords], its
    parts set apart by blanks:
    [( -? \d+ \.? \d* ) \s* [,] \s* ( -? \d+ \.? \d* )]. *)
Definition number : pattern :=
  [Opt (chr "-"%char); Plus PyStr.isdecimal; Opt (chr "."%char);
   Star PyStr.isdecimal].

Definition coord_pattern : pattern :=
  [Open 1] ++ number ++ [Close 1]
  ++ [Star PyStr.isspace; One (chr ","%char); Star PyStr.isspace]
  ++ [Open 2] ++ number ++ [Close 2].

(** The pattern of [_extract_two_locations]:
    [from \s+ ( .+? ) \s+ to \s+ ( .+ )]. *)
Definition from_to_pattern : pattern :=
  lit "from" ++ [Plus PyStr.isspace; Open 1; LazyPlus dot; Close 1;
                 Plus PyStr.isspace]
  ++ lit "to" ++ [Plus PyStr.isspace; Open 2; Plus dot; Close 2].

(** The pattern of [_extract_tile_info]:
    [tile [_\s]* ( \d+ ) [,\s]+ ( \d+ ) [,\s]+ zoom [_\s]* ( \d+ )]. *)
Definition tile_pattern : pattern :=
  lit "tile"
  ++ [Star (either (chr "_"%char) PyStr.isspace);
      Open 1; Plus PyStr.isdecimal; Close 1;
      Plus (either (chr ","%char) PyStr.isspace);
      Open 2; Plus PyStr.isdecimal; Close 2;
      Plus (either (chr ","%char) PyStr.isspace)]
  ++ lit "zoom"
  ++ [Star (either (chr "_"%char) PyStr.isspace);
      Open 3; Plus PyStr.isdecimal; Close 3].

(** The fixed fall-back locations. *)
Definition beirut_lat : pyval := VFloat "33.8938".
Definition beirut_lon : pyval := VFloat "35.5018".
Definition tripoli_lat : pyval := VFloat "34.4344".
Definition tripoli_lon : pyval := VFloat "35.8444".

Fixpoint first_prefix (prefixes : list string) (lowered : string)
  : option string :=
  match prefixes with
  | [] => None
  | prefix :: rest =>
      if PyStr.startswith lowered prefix then Some prefix
      else first_prefix rest lowered
  end.

Definition _extract_address (query : string) : string :=
  let prefixes :=
    ["find"; "geocode"; "where is"; "address of"; "coordinates of"] in
  match first_prefix prefixes (PyStr.lower query) with
  | Some prefix => PyStr.strip (PyStr.drop (String.length prefix) query)
  | None => PyStr.strip query
  end.

Fixpoint first_contained (words : list string) (lowered : string)
  : option string :=
  match words with
  | [] => None
  | w :: rest =>
      if PyStr.contains w lowered then Some w
      else first_contained rest lowered
  end.

Definition _extract_location (query : string) : exc string :=
  let prefixes :=
    ["weather in"; "weather at"; "temperature in"; "temperature at"] in
  match first_contained prefixes (PyStr.lower query) with
  | Some prefix =>
      idx <- Exc.of_option "substring not found"
               (PyStr.index prefix (PyStr.lower query)) ;;
      Ok (PyStr.strip (PyStr.drop (idx + String.length prefix) query))
  | None => Ok (PyStr.strip query)
  end.

Definition _extract_coords (query : string) : exc pyval :=
  match search coord_pattern query with
  | Some m =>
      lat <- Py.float (group coord_pattern m 1) ;;
      lon <- Py.float (group coord_pattern m 2) ;;
      Ok (VDict [("lat", lat); ("lon", lon)])
  | None => Ok (VDict [("lat", beirut_lat); ("lon", beirut_lon)])
  end.

Definition _extract_location_for_poi (query : string) : exc pyval :=
  location <- _extract_location query ;;
  coords <- _extract_coords query ;;
  let poi_types :=
    ["cafe"; "restaurant"; "park"; "hotel"; "museum"; "hospital"] in
  let query_type := first_contained poi_types (PyStr.lower query) in
  lat <- Py.getitem coords "lat" ;;
  lon <- Py.getitem coords "lon" ;;
  Ok (VDict [("query", VStr match query_type with
                            | Some t => t
                            | None => "place"
                            end);
             ("lat", lat); ("lon", lon)]).

Definition _extract_two_locations (query : string) : pyval :=
  match search from_to_pattern (PyStr.lower query) with
  | Some m =>
      VDict [("start", VStr (PyStr.strip (group from_to_pattern m 1)));
             ("end", VStr (PyStr.strip (group from_to_pattern m 2)))]
  | None => VDict [("start", VStr "Beirut"); ("end", VStr "Tripoli")]
  end.

(** The query is not looked at: the body is the comment
    [# Simplified - use defaults] and the two fixed locations. *)
Definition _extract_two_coords (query : string) : pyval :=
  VDict [("start_lat", beirut_lat); ("start_lon", beirut_lon);
         ("end_lat", tripoli_lat); ("end_lon", tripoli_lon)].

Definition _extract_tile_info (query : string) : exc pyval :=
  match search tile_pattern (PyStr.lower query) with
  | Some m =>
      tile_x <- Py.int (group tile_pattern m 1) ;;
      tile_y <- Py.int (group tile_pattern m 2) ;;
      zoom <- Py.int (group tile_pattern m 3) ;;
      Ok (VDict [("tile_x", tile_x); ("tile_y", tile_y); ("zoom", zoom)])
  | None => Ok (VDict [("tile_x", VInt 10); ("tile_y", VInt 7);
                       ("zoom", VInt 5)])
  end.

(** The keyword lists of the four routing rules. *)
Definition geo_words : list string :=
  ["geocode"; "address to"; "coordinates of"; "where is"].
Definition poi_words : list string :=
  ["find"; "search"; "near"; "poi"; "cafe"; "restaurant"; "park"].
Definition routing_words : list string :=
  ["route"; "directions"; "how to get"; "navigate"; "distance"].
Definition weather_words : list string :=
  ["weather"; "temperature"; "forecast"].

(** A routing decision: server name, tool name, arguments. *)
Definition decision : Type := string * string * pyval.

(** [re.findall(coord_pattern, query)]: the pairs of group texts. *)
Definition coords_found (query : string) : list (string * string) :=
  map (fun m => (group coord_pattern m 1, group coord_pattern m 2))
      (findall coord_pattern query).

Definition _route_query (query : string) : exc decision :=
  let query_lower := PyStr.lower query in
  if PyStr.any_in geo_words query_lower then
    if PyStr.contains "reverse" query_lower
       || PyStr.contains "coordinates to address" query_lower
    then
      coords <- _extract_coords query ;;
      Ok ("geo", "reverse_geocode", coords)
    else
      let address := _extract_address query in
      Ok ("geo", "geocode", VDict [("address", VStr address)])
  else if PyStr.any_in poi_words query_lower then
    location <- _extract_location_for_poi query ;;
    Ok ("geo", "search_poi", location)
  else if PyStr.any_in routing_words query_lower then
    if PyStr.contains "fastest" query_lower
       || PyStr.contains "quickest" query_lower
    then
      let locations := _extract_two_locations query in
      Ok ("routing", "fastest_route", locations)
    else if PyStr.contains "distance" query_lower then
      let found := coords_found query in
      if (2 <=? List.length found)%nat then
        c0 <- Py.item found 0 ;;
        start_lat <- Py.float (fst c0) ;;
        start_lon <- Py.float (snd c0) ;;
        c1 <- Py.item found 1 ;;
        end_lat <- Py.float (fst c1) ;;
        end_lon <- Py.float (snd c1) ;;
        Ok ("routing", "get_distance",
            VDict [("start_lat", start_lat); ("start_lon", start_lon);
                   ("end_lat", end_lat); ("end_lon", end_lon)])
      else
        Ok ("routing", "get_distance", _extract_two_coords query)
    else
      Ok ("routing", "get_route", _extract_two_coords query)
  else if PyStr.any_in weather_words query_lower then
    if PyStr.contains "overlay" query_lower
       || PyStr.contains "tile" query_lower
    then
      tile_info <- _extract_tile_info query ;;
      Ok ("weather", "weather_overlay", tile_info)
    else if PyStr.any_char PyStr.isdigit query && PyStr.contains "," query
    then
      coords <- _extract_coords query ;;
      Ok ("weather", "get_temperature", coords)
    else
      location <- _extract_location query ;;
      Ok ("weather", "get_weather", VDict [("location", VStr location)])
  else
    Ok ("geo", "geocode", VDict [("address", VStr query)]).

End Router.


(** ** The servers, the conversation and the effects of the two agents *)

(** A call of one of the server methods the agents use, with the values it
    is given. *)
Inductive call : Type :=
| _geocode (address : pyval)
| _reverse_geocode (lat lon : pyval)
| _search_poi (query lat lon : pyval)
| _get_route (start_lat start_lon end_lat end_lon : pyval)
| _get_distance (start_lat start_lon end_lat end_lon : pyval)
| _fastest_route (start finish : pyval)
| _get_weather (location : pyval)
| _get_temperature (lat lon : pyval)
| _weather_overlay (tile_x tile_y zoom : pyval).

(** [tool_call.id], [tool_call.function.name] and
    [tool_call.function.arguments] of a tool call the model asks for; the
    arguments are JSON text. *)
Record tool_call : Type := ToolCall {
  tc_id : string;
  tc_name : string;
  tc_arguments : string
}.

(** [response.choices[0].message]: [content] is [None] or a text,
    [tool_calls] is [None] or empty when the list is [[]]. *)
Record completion : Type := Completion {
  content : option string;
  tool_calls : list tool_call
}.

(** The entries of [conversation_history], by their ["role"].  An assistant
    entry has the key ["tool_calls"] exactly when its list is not empty. *)
Inductive message : Type :=
| System (text : string)
| User (text : string)
| Assistant (text : option string) (requests : list tool_call)
| Tool (tool_call_id name result : string).

(** What the agents act on: the list object [conversation_history], the
    record of the queries sent to the model (each with the history it was
    sent) and the record of the server calls made. *)
Record world : Type := World {
  history : list message;
  queries : list (list message);
  calls : list call
}.

(** A computation: it ends with a value or a raised exception, and leaves
    the world changed either way. *)
Definition M (A : Type) : Type := world -> exc A * world.

Module Eff.

Definition ret {A : Type} (a : A) : M A := fun w => (Ok a, w).

Definition raise {A : Type} (msg : string) : M A := fun w => (Raise msg, w).

Definition bind {A B : Type} (m : M A) (f : A -> M B) : M B :=
  fun w =>
    match m w with
    | (Ok a, w') => f a w'
    | (Raise msg, w') => (Raise msg, w')
    end.

Definition lift {A : Type} (e : exc A) : M A := fun w => (e, w).

(** [try: body except Exception as e: handler] *)
Definition try_except {A : Type} (body : M A) (handler : string -> M A)
  : M A :=
  fun w =>
    match body w with
    | (Ok a, w') => (Ok a, w')
    | (Raise msg, w') => handler msg w'
    end.

(** [conversation_history.append(m)] *)
Definition append (m : message) : M unit :=
  fun w => (Ok tt, World (history w ++ [m]) (queries w) (calls w)).

End Eff.

Declare Scope eff_scope.
Delimit Scope eff_scope with eff.
Notation "x <- m ;; f" := (Eff.bind m (fun x => f))
  (at level 61, m at next level, right associativity) : eff_scope.
Notation "m ;; f" := (Eff.bind m (fun _ => f))
  (at level 61, right associativity) : eff_scope.

Definition error_result (msg : string) : pyval := VDict [("error", VStr msg)].

Section Agents.

(** The servers: what a method call returns or raises, given the calls
    made before it. *)
Variable server : list call -> call -> exc pyval.

Local Open Scope eff_scope.

(** [await self.<server>.<method>(...)], once its arguments have their
    values. *)
Definition invoke (c : call) : M pyval :=
  fun w => (server (calls w) c, World (history w) (queries w) (calls w ++ [c])).

(** [arguments[k]] *)
Definition arg (arguments : pyval) (k : string) : M pyval :=
  Eff.lift (Py.getitem arguments k).

(** *** [agent.py]: [AssistantAgent] *)

Definition _call_geo_tool (tool_name : string) (arguments : pyval) : M pyval :=
  Eff.try_except
    (if tool_name =? "geocode" then
       address <- arg arguments "address" ;;
       invoke (_geocode address)
     else if tool_name =? "reverse_geocode" then
       lat <- arg arguments "lat" ;;
       lon <- arg arguments "lon" ;;
       invoke (_reverse_geocode lat lon)
     else if tool_name =? "search_poi" then
       query <- arg arguments "query" ;;
       lat <- arg arguments "lat" ;;
       lon <- arg arguments "lon" ;;
       invoke (_search_poi query lat lon)
     else
       Eff.ret (error_result ("Unknown geo tool: " ++ tool_name)))
    (fun e => Eff.ret (error_result e)).

Definition _call_routing_tool (tool_name : string) (arguments : pyval)
  : M pyval :=
  Eff.try_except
    (if tool_name =? "get_route" then
       start_lat <- arg arguments "start_lat" ;;
       start_lon <- arg arguments "start_lon" ;;
       end_lat <- arg arguments "end_lat" ;;
       end_lon <- arg arguments "end_lon" ;;
       invoke (_get_route start_lat start_lon end_lat end_lon)
     else if tool_name =? "get_distance" then
       start_lat <- arg arguments "start_lat" ;;
       start_lon <- arg arguments "start_lon" ;;
       end_lat <- arg arguments "end_lat" ;;
       end_lon <- arg arguments "end_lon" ;;
       invoke (_get_distance start_lat start_lon end_lat end_lon)
     else if tool_name =? "fastest_route" then
       start <- arg arguments "start" ;;
       finish <- arg arguments "end" ;;
       invoke (_fastest_route start finish)
     else
       Eff.ret (error_result ("Unknown routing tool: " ++ tool_name)))
    (fun e => Eff.ret (error_result e)).

Definition _call_weather_tool (tool_name : string) (arguments : pyval)
  : M pyval :=
  Eff.try_except
    (if tool_name =? "get_weather" then
       location <- arg arguments "location" ;;
       invoke (_get_weather location)
     else if tool_name =? "get_temperature" then
       lat <- arg arguments "lat" ;;
       lon <- arg arguments "lon" ;;
       invoke (_get_temperature lat lon)
     else if tool_name =? "weather_overlay" then
       tile_x <- arg arguments "tile_x" ;;
       tile_y <- arg arguments "tile_y" ;;
       zoom <- arg arguments "zoom" ;;
       invoke (_weather_overlay tile_x tile_y zoom)
     else
       Eff.ret (error_result ("Unknown weather tool: " ++ tool_name)))
    (fun e => Eff.ret (error_result e)).

Definition process_query (query : string) : M pyval :=
  d <- Eff.lift (Router._route_query query) ;;
  let '(server_name, tool_name, arguments) := d in
  Eff.try_except
    (result <- (if server_name =? "geo" then
                  _call_geo_tool tool_name arguments
                else if server_name =? "routing" then
                  _call_routing_tool tool_name arguments
                else if server_name =? "weather" then
                  _call_weather_tool tool_name arguments
                else
                  Eff.ret (error_result ("Unknown server: " ++ server_name))) ;;
     Eff.ret (VDict [("query", VStr query); ("server", VStr server_name);
                     ("tool", VStr tool_name); ("result", result)]))
    (fun e => Eff.ret (VDict [("query", VStr query); ("error", VStr e)])).

(** *** [interactive_agent.py]: [InteractiveAgent] *)

(** The two [json.dumps] of [call_tool] only feed [print]; they return on
    every [pyval]. *)
Definition call_tool (tool_name : string) (arguments : pyval) : M pyval :=
  Eff.try_except
    (if tool_name =? "geocode" then
       address <- arg arguments "address" ;;
       invoke (_geocode address)
     else if tool_name =? "reverse_geocode" then
       lat <- arg arguments "lat" ;;
       lon <- arg arguments "lon" ;;
       invoke (_reverse_geocode lat lon)
     else if tool_name =? "search_poi" then
       query <- arg arguments "query" ;;
       lat <- arg arguments "lat" ;;
       lon <- arg arguments "lon" ;;
       invoke (_search_poi query lat lon)
     else if tool_name =? "get_route" then
       start_lat <- arg arguments "start_lat" ;;
       start_lon <- arg arguments "start_lon" ;;
       end_lat <- arg arguments "end_lat" ;;
       end_lon <- arg arguments "end_lon" ;;
       invoke (_get_route start_lat start_lon end_lat end_lon)
     else if tool_name =? "get_distance" then
       start_lat <- arg arguments "start_lat" ;;
       start_lon <- arg arguments "start_lon" ;;
       end_lat <- arg arguments "end_lat" ;;
       end_lon <- arg arguments "end_lon" ;;
       invoke (_get_distance start_lat start_lon end_lat end_lon)
     else if tool_name =? "fastest_route" then
       start <- arg arguments "start" ;;
       finish <- arg arguments "end" ;;
       invoke (_fastest_route start finish)
     else if tool_name =? "get_weather" then
       location <- arg arguments "location" ;;
       invoke (_get_weather location)
     else if tool_name =? "get_temperature" then
       lat <- arg arguments "lat" ;;
       lon <- arg arguments "lon" ;;
       invoke (_get_temperature lat lon)
     else
       Eff.ret (error_result ("Unknown tool: " ++ tool_name)))
    (fun e => Eff.ret (error_result e)).

(** The language model: what [self.client.chat.completions.create] returns
    or raises on the history it is sent. *)
Variable engine : list message -> exc completion.

(** [json.loads] and [json.dumps]. *)
Variable json_loads : string -> exc pyval.
Variable json_dumps : pyval -> string.

Definition max_iterations : nat := 5.

Definition no_response_message : string :=
  "I processed your request but didn't get a response. Please try rephrasing your question.".

Definition retry_message : string :=
  "I'm having trouble processing your request. Please try again with a simpler question.".

(** [self.client.chat.completions.create(messages=conversation_history, ...)] *)
Definition create : M completion :=
  fun w =>
    (engine (history w),
     World (history w) (queries w ++ [history w]) (calls w)).

(** [for tool_call in message.tool_calls: ...] *)
Fixpoint run_tool_calls (requests : list tool_call) : M unit :=
  match requests with
  | [] => Eff.ret tt
  | tool_call :: rest =>
      let tool_name := tc_name tool_call in
      arguments <- Eff.lift (json_loads (tc_arguments tool_call)) ;;
      tool_result <- call_tool tool_name arguments ;;
      Eff.append (Tool (tc_id tool_call) tool_name (json_dumps tool_result)) ;;
      run_tool_calls rest
  end.

(** [while iteration < max_iterations: iteration += 1; ...], by the number
    [max_iterations - iteration] of rounds that remain. *)
Fixpoint chat_loop (remaining : nat) : M string :=
  match remaining with
  | O => Eff.ret retry_message
  | S remaining' =>
      message <- create ;;
      Eff.append (Assistant (content message) (tool_calls message)) ;;
      match tool_calls message with
      | _ :: _ =>
          run_tool_calls (tool_calls message) ;;
          chat_loop remaining'
      | [] =>
          match content message with
          | Some (String c text) => Eff.ret (String c text)
          | _ => Eff.ret no_response_message
          end
      end
  end.

(** [chat(user_message, conversation_history)], run in a world whose
    [history] is the list passed as [conversation_history]. *)
Definition chat (user_message : string) : M string :=
  Eff.append (User user_message) ;;
  chat_loop max_iterations.

End Agents.

(** ** The tool catalogue *)

(** [InteractiveAgent._define_tools]: the name of each tool with the
    ["required"] list of its parameter schema. *)
Definition _define_tools : list (string * list string) :=
  [("geocode", ["address"]);
   ("reverse_geocode", ["lat"; "lon"]);
   ("search_poi", ["query"; "lat"; "lon"]);
   ("get_route", ["start_lat"; "start_lon"; "end_lat"; "end_lon"]);
   ("get_distance", ["start_lat"; "start_lon"; "end_lat"; "end_lon"]);
   ("fastest_route", ["start"; "end"]);
   ("get_weather", ["location"]);
   ("get_temperature", ["lat"; "lon"])].

(** The tools of the three wrappers of [AssistantAgent], with the
    ["required"] lists of the schemas the servers register for them
    ([_register_tools] of [geo_server.py], [routing_server.py] and
    [weather_server.py]). *)
Definition geo_tools : list (string * list string) :=
  [("geocode", ["address"]);
   ("reverse_geocode", ["lat"; "lon"]);
   ("search_poi", ["query"; "lat"; "lon"])].

Definition routing_tools : list (string * list string) :=
  [("get_route", ["start_lat"; "start_lon"; "end_lat"; "end_lon"]);
   ("get_distance", ["start_lat"; "start_lon"; "end_lat"; "end_lon"]);
   ("fastest_route", ["start"; "end"])].

Definition weather_tools : list (string * list string) :=
  [("get_weather", ["location"]);
   ("get_temperature", ["lat"; "lon"]);
   ("weather_overlay", ["tile_x"; "tile_y"; "zoom"])].

(** ** Stand-ins for the external parts

    The statements below hold for every server, every model and every
    [json.loads] and [json.dumps].  The closed examples need particular
    ones to run on; these are the ones they use. *)

Module Json.

Definition quote : ascii := "034"%char.
Definition backslash : ascii := "092"%char.

Definition is_ws (c : ascii) : bool :=
  Ascii.eqb c " "%char || Ascii.eqb c "009"%char || Ascii.eqb c "010"%char
  || Ascii.eqb c "013"%char.

Fixpoint skip_ws (s : string) : string :=
  match s with
  | String c s' => if is_ws c then skip_ws s' else s
  | EmptyString => EmptyString
  end.

(** The text of a string up to its closing quote; no escape sequences. *)
Fixpoint string_body (s : string) : option (string * string) :=
  match s with
  | EmptyString => None
  | String c s' =>
      if Ascii.eqb c quote then Some (EmptyString, s')
      else if Ascii.eqb c backslash || (PyStr.code c <? 32)%nat then None
      else match string_body s' with
           | Some (t, r) => Some (String c t, r)
           | None => None
           end
  end.

Fixpoint take_decimals (s : string) : string * string :=
  match s with
  | String c s' =>
      if PyStr.isdecimal c
      then let (d, r) := take_decimals s' in (String c d, r)
      else (EmptyString, s)
  | EmptyString => (EmptyString, EmptyString)
  end.

(** A number: an integer, or digits with a fraction; no exponent. *)
Definition number (s : string) : option (pyval * string) :=
  let (sign, body) :=
    match s with
    | String c s' => if Ascii.eqb c "-"%char then ("-", s') else (EmptyString, s)
    | EmptyString => (EmptyString, s)
    end in
  let (digits, r) := take_decimals body in
  match digits with
  | EmptyString => None
  | String d more =>
      if Ascii.eqb d "0"%char && negb (String.length more =? 0)%nat then None
      else
        match r with
        | String c r' =>
            if Ascii.eqb c "."%char then
              let (frac, r'') := take_decimals r' in
              match frac with
              | EmptyString => None
              | _ => Some (VFloat (sign ++ digits ++ "." ++ frac), r'')
              end
            else if Ascii.eqb c "e"%char || Ascii.eqb c "E"%char then None
            else Some (VInt (if String.eqb sign "-"
                             then - Py.decimal_value 0 digits
                             else Py.decimal_value 0 digits), r)
        | EmptyString =>
            Some (VInt (if String.eqb sign "-"
                        then - Py.decimal_value 0 digits
                        else Py.decimal_value 0 digits), r)
        end
  end.

(** [d[k] = v] *)
Fixpoint set_item (items : list (string * pyval)) (k : string) (v : pyval)
  : list (string * pyval) :=
  match items with
  | [] => [(k, v)]
  | (k', v') :: rest =>
      if String.eqb k' k then (k', v) :: rest
      else (k', v') :: set_item rest k v
  end.

Definition dict_of (pairs : list (string * pyval)) : pyval :=
  VDict (fold_left (fun items kv => set_item items (fst kv) (snd kv)) pairs []).

Fixpoint value (fuel : nat) (s : string) : option (pyval * string) :=
  match fuel with
  | O => None
  | S fuel' =>
      match skip_ws s with
      | EmptyString => None
      | String c r =>
          if Ascii.eqb c "{"%char then
            match skip_ws r with
            | String "}"%char r' => Some (VDict [], r')
            | _ => match members fuel' r with
                   | Some (pairs, r') => Some (dict_of pairs, r')
                   | None => None
                   end
            end
          else if Ascii.eqb c "["%char then
            match skip_ws r with
            | String "]"%char r' => Some (VList [], r')
            | _ => match elements fuel' r with
                   | Some (l, r') => Some (VList l, r')
                   | None => None
                   end
            end
          else if Ascii.eqb c quote then
            match string_body r with
            | Some (t, r') => Some (VStr t, r')
            | None => None
            end
          else if PyStr.startswith (String c r) "true" then
            Some (VBool true, PyStr.drop 4 (String c r))
          else if PyStr.startswith (String c r) "false" then
            Some (VBool false, PyStr.drop 5 (String c r))
          else if PyStr.startswith (String c r) "null" then
            Some (VNone, PyStr.drop 4 (String c r))
          else number (String c r)
      end
  end
with members (fuel : nat) (s : string)
  : option (list (string * pyval) * string) :=
  match fuel with
  | O => None
  | S fuel' =>
      match skip_ws s with
      | String c r =>
          if Ascii.eqb c quote then
            match string_body r with
            | Some (key, r1) =>
                match skip_ws r1 with
                | String ":"%char r2 =>
                    match value fuel' r2 with
                    | Some (v, r3) =>
                        match skip_ws r3 with
                        | String ","%char r4 =>
                            match members fuel' r4 with
                            | Some (pairs, r5) => Some ((key, v) :: pairs, r5)
                            | None => None
                            end
                        | String "}"%char r4 => Some ([(key, v)], r4)
                        | _ => None
                        end
                    | None => None
                    end
                | _ => None
                end
            | None => None
            end
          else None
      | EmptyString => None
      end
  end
with elements (fuel : nat) (s : string) : option (list pyval * string) :=
  match fuel with
  | O => None
  | S fuel' =>
      match value fuel' s with
      | Some (v, r) =>
          match skip_ws r with
          | String ","%char r' =>
              match elements fuel' r' with
              | Some (l, r'') => Some (v :: l, r'')
              | None => None
              end
          | String "]"%char r' => Some ([v], r')
          | _ => None
          end
      | None => None
      end
  end.

(** [json.loads] on JSON text without escape sequences and exponents;
    every other text counts as malformed here. *)
Definition loads (s : string) : exc pyval :=
  match value (2 * String.length s + 2) s with
  | Some (v, rest) =>
      match skip_ws rest with
      | EmptyString => Ok v
      | _ => Raise "Extra data"
      end
  | None => Raise "Expecting value"
  end.

Fixpoint escape (s : string) : string :=
  match s with
  | EmptyString => EmptyString
  | String c s' =>
      if Ascii.eqb c quote || Ascii.eqb c backslash
      then String backslash (String c (escape s'))
      else String c (escape s')
  end.

Definition quoted (s : string) : string :=
  String quote (escape s ++ String quote EmptyString).

Definition decimal (z : Z) : string :=
  DecimalString.NilZero.string_of_int (Z.to_int z).

(** [json.dumps] with its default separators; a float is written as its
    literal, and of the characters of a string only the quote and the
    backslash are escaped. *)
Fixpoint dumps (v : pyval) : string :=
  match v with
  | VNone => "null"
  | VBool true => "true"
  | VBool false => "false"
  | VInt z => decimal z
  | VFloat literal => literal
  | VStr s => quoted s
  | VList l =>
      ("[" ++ (fix each (l : list pyval) : string :=
                 match l with
                 | [] => EmptyString
                 | [x] => dumps x
                 | x :: rest => (dumps x ++ ", " ++ each rest)%string
                 end) l ++ "]")%string
  | VDict items =>
      ("{" ++ (fix each (items : list (string * pyval)) : string :=
                 match items with
                 | [] => EmptyString
                 | [(k, x)] => (quoted k ++ ": " ++ dumps x)%string
                 | (k, x) :: rest =>
                     (quoted k ++ ": " ++ dumps x ++ ", " ++ each rest)%string
                 end) items ++ "}")%string
  end.

End Json.

Module Stub.

Definition empty_world : world := World [] [] [].

(** A server whose every method returns [v]. *)
Definition replies (v : pyval) : list call -> call -> exc pyval :=
  fun _ _ => Ok v.

(** A server whose every method raises an exception with message [msg]. *)
Definition fails (msg : string) : list call -> call -> exc pyval :=
  fun _ _ => Raise msg.

(** A model that answers with a text and asks for no tool. *)
Definition answers_at_once (text : string) : list message -> exc completion :=
  fun _ => Ok (Completion (Some text) []).

(** A model that asks for the same tool calls on every query. *)
Definition keeps_asking (requests : list tool_call)
  : list message -> exc completion :=
  fun _ => Ok (Completion None requests).

Definition geocode_aub : tool_call :=
  ToolCall "call_1" "geocode"
    ("{" ++ Json.quoted "address" ++ ": " ++ Json.quoted "AUB" ++ "}").

Definition search_cafes : tool_call :=
  ToolCall "call_2" "search_poi"
    ("{" ++ Json.quoted "query" ++ ": " ++ Json.quoted "cafe" ++ ", "
     ++ Json.quoted "lat" ++ ": 33.9, " ++ Json.quoted "lon" ++ ": 35.48}").

(** A tool call whose arguments are cut off after the opening brace. *)
Definition cut_off : tool_call := ToolCall "call_1" "geocode" "{".

Definition found : pyval :=
  VDict [("success", VBool true); ("lat", VFloat "33.9"); ("lon", VFloat "35.48")].

End Stub.

(** ** The vocabulary of the statements *)

(** What a pattern item can have consumed. *)
Definition fits (it : Re.item) (seg : string) : bool :=
  match it with
  | Re.One p =>
      match seg with
      | String c EmptyString => p c
      | _ => false
      end
  | Re.Opt p =>
      match seg with
      | EmptyString => true
      | String c EmptyString => p c
      | _ => false
      end
  | Re.Star p => PyStr.all_char p seg
  | Re.Plus p | Re.LazyPlus p =>
      PyStr.all_char p seg && negb (String.length seg =? 0)%nat
  | Re.Open _ | Re.Close _ => (String.length seg =? 0)%nat
  end.

(** The segments of a match fit the items of the pattern one by one. *)
Definition fits_pattern (pat : Re.pattern) (segs : Re.segments) : Prop :=
  Forall2 (fun it seg => fits it seg = true) pat segs.

Definition distance_query : string :=
  "What's the distance between 33.8938,35.5018 and 34.4344,35.8444?".

(** What it is for a dispatcher to contain the exceptions of the server:
    it returns on every call, and when the server method it invokes raises,
    it returns the error result of that exception's message. *)
Definition contains_exceptions (server : list call -> call -> exc pyval)
  (dispatch : string -> pyval -> M pyval) : Prop :=
  forall tool_name arguments w,
    (exists r, fst (dispatch tool_name arguments w) = Ok r)
    /\ forall c msg,
         calls (snd (dispatch tool_name arguments w)) = calls w ++ [c] ->
         server (calls w) c = Raise msg ->
         fst (dispatch tool_name arguments w) = Ok (error_result msg).

(** The dispatchers of the two agents, each with the tools it knows. *)
Definition catalogue (server : list call -> call -> exc pyval)
  : list ((string -> pyval -> M pyval) * list (string * list string)) :=
  [(call_tool server, _define_tools);
   (_call_geo_tool server, geo_tools);
   (_call_routing_tool server, routing_tools);
   (_call_weather_tool server, weather_tools)].

(** A failure result in the words of the specification: [success] is false
    and [error] is a non-empty string. *)
Definition flagged_failure (r : pyval) : Prop :=
  exists items c msg,
    r = VDict items
    /\ Py.assoc "success" items = Some (VBool false)
    /\ Py.assoc "error" items = Some (VStr (String c msg)).

(** The model asks for at least one tool on every query and never gives a
    plain answer. *)
Definition always_requests (engine : list message -> exc completion) : Prop :=
  forall h, exists m, engine h = Ok m /\ tool_calls m <> [].

(** The argument text of every tool call the model asks for is text that
    [json.loads] reads. *)
Definition arguments_parse (json_loads : string -> exc pyval)
  (engine : list message -> exc completion) : Prop :=
  forall h m,
    engine h = Ok m ->
    Forall (fun tc => exists v, json_loads (tc_arguments tc) = Ok v)
           (tool_calls m).

(** One tool-result message for each request, in the order of the requests,
    each with the identifier and the name of its request. *)
Definition answers (requests : list tool_call) (msgs : list message) : Prop :=
  Forall2 (fun tc m => exists result, m = Tool (tc_id tc) (tc_name tc) result)
          requests msgs.

(** [rounds engine h qs final]: from the history [h], the queries [qs] are
    sent to the model one after the other and the history ends as [final].
    Each query is sent the history as it stands; the completion it returns
    is appended as an assistant message, followed by the answers to its
    requests, before the next query is sent or the loop ends. *)
Inductive rounds (engine : list message -> exc completion)
  : list message -> list (list message) -> list message -> Prop :=
| rounds_done h : rounds engine h [] h
| rounds_raise h e : engine h = Raise e -> rounds engine h [h] h
| rounds_step h m msgs qs final :
    engine h = Ok m ->
    answers (tool_calls m) msgs ->
    rounds engine (h ++ Assistant (content m) (tool_calls m) :: msgs) qs final ->
    rounds engine h (h :: qs) final.

(** The parameters of each tool with the ["type"] its schema declares for
    them ([_define_tools], and [weather_server.py] for [weather_overlay]).
    Every schema requires all its parameters. *)
Definition declared_types : list (string * list (string * string)) :=
  [("geocode", [("address", "string")]);
   ("reverse_geocode", [("lat", "number"); ("lon", "number")]);
   ("search_poi", [("query", "string"); ("lat", "number"); ("lon", "number")]);
   ("get_route", [("start_lat", "number"); ("start_lon", "number");
                  ("end_lat", "number"); ("end_lon", "number")]);
   ("get_distance", [("start_lat", "number"); ("start_lon", "number");
                     ("end_lat", "number"); ("end_lon", "number")]);
   ("fastest_route", [("start", "string"); ("end", "string")]);
   ("get_weather", [("location", "string")]);
   ("get_temperature", [("lat", "number"); ("lon", "number")]);
   ("weather_overlay", [("tile_x", "integer"); ("tile_y", "integer");
                        ("zoom", "integer")])].

(** The values of a JSON Schema type. *)
Definition has_type (type : string) (v : pyval) : bool :=
  match v with
  | VStr _ => type =? "string"
  | VFloat _ => type =? "number"
  | VInt _ => (type =? "integer") || (type =? "number")
  | _ => false
  end.

Fixpoint lookup {A : Type} (k : string) (table : list (string * A)) : option A :=
  match table with
  | [] => None
  | (k', a) :: rest => if String.eqb k' k then Some a else lookup k rest
  end.

(** The arguments are a mapping that has every parameter, with a value of
    the declared type. *)
Definition conforms (parameters : list (string * string)) (arguments : pyval)
  : bool :=
  match arguments with
  | VDict items =>
      forallb (fun kt => match Py.assoc (fst kt) items with
                         | Some v => has_type (snd kt) v
                         | None => false
                         end) parameters
  | _ => false
  end.

(** The tools of the wrapper [process_query] calls for a server name. *)
Definition tools_of (server_name : string) : list (string * list string) :=
  if server_name =? "geo" then geo_tools
  else if server_name =? "routing" then routing_tools
  else if server_name =? "weather" then weather_tools
  else [].

(** A decision the wrappers take without complaint: a tool of the server it
    names, with arguments that conform to the tool's schema. *)
Definition accepted (d : Router.decision) : bool :=
  let '(server_name, tool_name, arguments) := d in
  match lookup tool_name (tools_of server_name),
        lookup tool_name declared_types with
  | Some _, Some parameters => conforms parameters arguments
  | _, _ => false
  end.

(** The name of the server method of a call, and the values it is given. *)
Definition method_name (c : call) : string :=
  match c with
  | _geocode _ => "_geocode"
  | _reverse_geocode _ _ => "_reverse_geocode"
  | _search_poi _ _ _ => "_search_poi"
  | _get_route _ _ _ _ => "_get_route"
  | _get_distance _ _ _ _ => "_get_distance"
  | _fastest_route _ _ => "_fastest_route"
  | _get_weather _ => "_get_weather"
  | _get_temperature _ _ => "_get_temperature"
  | _weather_overlay _ _ _ => "_weather_overlay"
  end.

Definition call_arguments (c : call) : list pyval :=
  match c with
  | _geocode a => [a]
  | _reverse_geocode a b => [a; b]
  | _search_poi a b c => [a; b; c]
  | _get_route a b c d => [a; b; c; d]
  | _get_distance a b c d => [a; b; c; d]
  | _fastest_route a b => [a; b]
  | _get_weather a => [a]
  | _get_temperature a b => [a; b]
  | _weather_overlay a b c => [a; b; c]
  end.

(** What a dispatcher answers when the server has returned or raised. *)
Definition passed_on (outcome : exc pyval) : pyval :=
  match outcome with
  | Ok r => r
  | Raise msg => error_result msg
  end.

(** The dispatchers with their tools and the words with which each turns
    down a name it does not know. *)
Definition refusals (server : list call -> call -> exc pyval)
  : list ((string -> pyval -> M pyval) * list (string * list string) * string) :=
  [(call_tool server, _define_tools, "Unknown tool: ");
   (_call_geo_tool server, geo_tools, "Unknown geo tool: ");
   (_call_routing_tool server, routing_tools, "Unknown routing tool: ");
   (_call_weather_tool server, weather_tools, "Unknown weather tool: ")].

(** The decisions of the router, by shape. *)
Inductive routed : Router.decision -> Prop :=
| routed_geocode address :
    routed ("geo", "geocode", VDict [("address", VStr address)])
| routed_reverse_geocode lat lon :
    routed ("geo", "reverse_geocode",
            VDict [("lat", VFloat lat); ("lon", VFloat lon)])
| routed_search_poi category lat lon :
    routed ("geo", "search_poi",
            VDict [("query", VStr category); ("lat", VFloat lat);
                   ("lon", VFloat lon)])
| routed_fastest_route start finish :
    routed ("routing", "fastest_route",
            VDict [("start", VStr start); ("end", VStr finish)])
| routed_get_distance a b c d :
    routed ("routing", "get_distance",
            VDict [("start_lat", VFloat a); ("start_lon", VFloat b);
                   ("end_lat", VFloat c); ("end_lon", VFloat d)])
| routed_get_route a b c d :
    routed ("routing", "get_route",
            VDict [("start_lat", VFloat a); ("start_lon", VFloat b);
                   ("end_lat", VFloat c); ("end_lon", VFloat d)])
| routed_weather_overlay x y z :
    routed ("weather", "weather_overlay",
            VDict [("tile_x", VInt x); ("tile_y", VInt y); ("zoom", VInt z)])
| routed_get_temperature lat lon :
    routed ("weather", "get_temperature",
            VDict [("lat", VFloat lat); ("lon", VFloat lon)])
| routed_get_weather location :
    routed ("weather", "get_weather", VDict [("location", VStr location)]).

Definition is_tool_message (m : message) : bool :=
  match m with
  | Tool _ _ _ => true
  | _ => false
  end.

(** The model returns a completion with requests on the history [h]. *)
Definition asks (engine : list message -> exc completion) (h : list message)
  : Prop :=
  exists m, engine h = Ok m /\ tool_calls m <> [].

(** What [chat] returns for a completion without requests. *)
Definition final_text (m : completion) : string :=
  match content m with
  | Some (String c text) => String c text
  | _ => no_response_message
  end.

(** How a run of the loop with [n] rounds can end, given the queries [qs] it
    sent: with the retry message after [n] queries that all came back with
    requests; or at the first query that came back without requests, with
    its text; or at the first query on which the model raised, with that
    exception. *)
Definition ends (engine : list message -> exc completion) (n : nat)
  (qs : list (list message)) (outcome : exc string) : Prop :=
  (List.length qs = n /\ Forall (asks engine) qs /\ outcome = Ok retry_message)
  \/ exists earlier h,
       qs = earlier ++ [h] /\ Forall (asks engine) earlier
       /\ ((exists m, engine h = Ok m /\ tool_calls m = []
                      /\ outcome = Ok (final_text m))
           \/ (exists e, engine h = Raise e /\ outcome = Raise e)).

(** *** [interactive_agent.py]: the session of [run] *)

Definition in_quotes (s : string) : string :=
  String "034"%char (s ++ String "034"%char EmptyString).

(** The text of the system message, line by line. *)
Definition system_prompt : string :=
  String.concat (String "010"%char EmptyString)
    ["You are a helpful assistant that can help users with geocoding, routing, and weather queries.";
     "You have access to several tools:";
     "- GeoServer: geocode addresses, reverse geocode coordinates, search for points of interest (REAL DATA from OpenStreetMap)";
     "- RoutingServer: get routes, calculate distances, find fastest routes (MOCK DATA - but distance calculations are accurate)";
     "- WeatherMapServer: get weather and temperature (MOCK DATA)";
     EmptyString;
     "IMPORTANT INSTRUCTIONS:";
     ("1. When a user asks about a location by name (like " ++ in_quotes "AUB" ++ ", " ++ in_quotes "Beirut" ++ ", " ++ in_quotes "Tripoli" ++ "), you may need to geocode it first to get coordinates")%string;
     "2. For POI searches, you need coordinates - if the user gives a location name, geocode it first, then search for POIs";
     "3. For routing between locations, geocode both locations first, then call get_route or get_distance";
     "4. Always use the tools when appropriate - don't just guess or make up information";
     "5. After calling tools, provide a clear, helpful response based on the actual results";
     EmptyString;
     "Example workflow:";
     ("- User: " ++ in_quotes "Find cafes near AUB")%string;
     ("- Step 1: Call geocode(" ++ in_quotes "AUB" ++ ") to get coordinates")%string;
     ("- Step 2: Call search_poi(" ++ in_quotes "cafe" ++ ", lat, lon) with the coordinates from step 1")%string;
     "- Step 3: Present the results to the user"].

(** What comes from the keyboard at a prompt of [input]: a line, or the
    interrupt key. *)
Inductive keyboard : Type :=
| Typed (line : string)
| Interrupt.

(** How the session stands when the keyboard events given are used up:
    ended by a quit word, ended by the interrupt key, or still at the
    prompt. *)
Inductive session_end : Type :=
| Quit
| Interrupted
| AtPrompt.

Definition is_quit (user_input : string) : bool :=
  existsb (String.eqb (PyStr.lower user_input)) ["quit"; "exit"; "q"].

(** [try: ... except Exception as e: ...] around a computation whose
    outcome, response or error, is only shown. *)
Definition shown {A : Type} (m : M A) : M (exc A) :=
  fun w => let (outcome, w') := m w in (Ok outcome, w').

Section Session.

Variable server : list call -> call -> exc pyval.
Variable engine : list message -> exc completion.
Variable json_loads : string -> exc pyval.
Variable json_dumps : pyval -> string.

Local Open Scope eff_scope.

(** The [while True] loop of [run], by the keyboard events still to come.
    It returns what it has shown for each input it passed to [chat], the
    response or the error, and how the session stands. *)
Fixpoint run_loop (events : list keyboard)
  : M (list (exc string) * session_end) :=
  match events with
  | [] => Eff.ret ([], AtPrompt)
  | Interrupt :: _ => Eff.ret ([], Interrupted)
  | Typed line :: rest =>
      let user_input := PyStr.strip line in
      if (String.length user_input =? 0)%nat then run_loop rest
      else if is_quit user_input then Eff.ret ([], Quit)
      else
        response <- shown (chat server engine json_loads json_dumps user_input) ;;
        later <- run_loop rest ;;
        Eff.ret (response :: fst later, snd later)
  end.

(** [run]: the loop on a fresh [conversation_history] that holds the system
    message. *)
Definition run (events : list keyboard)
  : M (list (exc string) * session_end) :=
  fun w => run_loop events (World [System system_prompt] (queries w) (calls w)).

End Session.

(** The inputs a session passes to [chat]: the lines that are not blank, with
    the blanks around them removed, up to the first quit word or
    interrupt. *)
Fixpoint processed (events : list keyboard) : list string :=
  match events with
  | [] => []
  | Interrupt :: _ => []
  | Typed line :: rest =>
      let user_input := PyStr.strip line in
      if (String.length user_input =? 0)%nat then processed rest
      else if is_quit user_input then []
      else user_input :: processed rest
  end.

(** A keyboard event that ends the session. *)
Definition ends_session (event : keyboard) : bool :=
  match event with
  | Interrupt => true
  | Typed line =>
      negb (String.length (PyStr.strip line) =? 0)%nat
      && is_quit (PyStr.strip line)
  end.

Definition is_typed_message (m : message) : bool :=
  match m with
  | System _ | User _ => true
  | _ => false
  end.

(** *** [routing_server.py]: [RoutingServer._fastest_route] *)

Module RoutingServer.

Local Open Scope exc_scope.

(** [s.replace(c, "")] for a one-character [c], the only use the source
    makes of [replace]. *)
Fixpoint remove (c : ascii) (s : string) : string :=
  match s with
  | EmptyString => EmptyString
  | String x s' => if Ascii.eqb x c then remove c s' else String x (remove c s')
  end.

(** [s.split(sep)] for a one-character [sep]. *)
Fixpoint split (sep : ascii) (s : string) : list string :=
  match s with
  | EmptyString => [EmptyString]
  | String x s' =>
      if Ascii.eqb x sep then EmptyString :: split sep s'
      else match split sep s' with
           | part :: parts => String x part :: parts
           | [] => [String x EmptyString]
           end
  end.

(** [s.isdigit()] *)
Definition isdigit (s : string) : bool :=
  PyStr.all_char PyStr.isdigit s && negb (String.length s =? 0)%nat.

(** The test of [get_coords]: the text has a comma and, with its points,
    minus signs, commas and spaces taken out, is made of digits. *)
Definition looks_like_coordinates (location : string) : bool :=
  PyStr.contains "," location
  && isdigit (remove " "%char
                (remove ","%char (remove "-"%char (remove "."%char location)))).

(** [bool(v)]; a float written as a plain decimal literal is zero when the
    literal has no digit but 0 (literals so small that they round to zero are
    not told apart). *)
Definition truthy (v : pyval) : bool :=
  match v with
  | VNone => false
  | VBool b => b
  | VInt z => negb (z =? 0)%Z
  | VFloat literal =>
      PyStr.any_char (fun c => PyStr.between 49 57 c) literal
  | VStr s => negb (String.length s =? 0)%nat
  | VList l => negb (List.length l =? 0)%nat
  | VDict items => negb (List.length items =? 0)%nat
  end.

(** [d.get(k)]: [None] for a missing key, [AttributeError] on a value that
    is not a mapping. *)
Definition get (d : pyval) (k : string) : exc pyval :=
  match d with
  | VDict items =>
      Ok match Py.assoc k items with
         | Some v => v
         | None => VNone
         end
  | _ => Raise "object has no attribute 'get'"
  end.

(** [d[k] = v] on a mapping. *)
Definition set (d : pyval) (k : string) (v : pyval) : pyval :=
  match d with
  | VDict items => VDict (Json.set_item items k v)
  | _ => d
  end.

Section FastestRoute.

(** The lookup of an address at Nominatim with the conversion of its answer,
    the [else] branch of [get_coords]: a pair of coordinates or an
    exception. *)
Variable geocode : string -> exc (pyval * pyval).

(** [self._get_route], which returns a mapping on every call: its body is
    inside [try] and its [except Exception] handler returns a mapping. *)
Variable _get_route : pyval -> pyval -> pyval -> pyval -> pyval.

Definition get_coords (location : string) : exc (pyval * pyval) :=
  if looks_like_coordinates location then
    let parts := split ","%char location in
    part0 <- Py.item parts 0 ;;
    lat <- Py.float (PyStr.strip part0) ;;
    part1 <- Py.item parts 1 ;;
    lon <- Py.float (PyStr.strip part1) ;;
    Ok (lat, lon)
  else geocode location.

Definition _fastest_route (start finish : string) : pyval :=
  match
    (start_coords <- get_coords start ;;
     end_coords <- get_coords finish ;;
     let route_result :=
       _get_route (fst start_coords) (snd start_coords)
         (fst end_coords) (snd end_coords) in
     success <- get route_result "success" ;;
     if truthy success then
       let route_result := set route_result "start_location" (VStr start) in
       let route_result := set route_result "end_location" (VStr finish) in
       let route_result := set route_result "route_type" (VStr "fastest") in
       Ok route_result
     else Ok route_result)
  with
  | Ok route_result => route_result
  | Raise e =>
      VDict [("success", VBool false);
             ("error", VStr ("Fastest route error: " ++ e));
             ("start", VStr start); ("end", VStr finish)]
  end.

End FastestRoute.

End RoutingServer.

(** A character of a plain coordinate: a decimal digit, a point or a minus
    sign. *)
Definition plain_char (c : ascii) : bool :=
  PyStr.isdecimal c || Ascii.eqb c "."%char || Ascii.eqb c "-"%char.

(** A plain coordinate: a decimal literal of digits, point and minus. *)
Definition plain_coordinate (s : string) : bool :=
  Py.float_literal s && PyStr.all_char plain_char s.

Definition is_blank (c : ascii) : bool := Ascii.eqb c " "%char.

(** The text that the coordinate test of [get_coords] checks for digits. *)
Definition cleaned (s : string) : string :=
  RoutingServer.remove " "%char
    (RoutingServer.remove ","%char
       (RoutingServer.remove "-"%char (RoutingServer.remove "."%char s))).

(** A character that [lower] leaves as it is. *)
Definition is_lower (c : ascii) : bool := Ascii.eqb (PyStr.lower_char c) c.

(** A character class that does not tell a letter from its lower-case
    form, a pattern item with such a class, and a match with its texts in
    lower case. *)
Definition case_blind (p : ascii -> bool) : Prop :=
  forall c, p (PyStr.lower_char c) = p c.

Definition item_case_blind (it : Re.item) : Prop :=
  match it with
  | Re.One p | Re.Opt p | Re.Star p | Re.Plus p | Re.LazyPlus p => case_blind p
  | Re.Open _ | Re.Close _ => True
  end.

Definition lowered (r : option Re.segments) : option Re.segments :=
  option_map (map PyStr.lower) r.

(** * Properties *)

(** ** Matching *)

Section MatchFacts.

Variable p : ascii -> bool.
Variable k : string -> option Re.segments.
Variable good : Re.segments -> Prop.
Hypothesis k_good : forall s segs, k s = Some segs -> good segs.

Lemma push_some c r segs :
  Re.push c r = Some segs ->
  exists seg rest, r = Some (seg :: rest) /\ segs = String c seg :: rest.
Proof.
  destruct r as [[|seg rest]|]; simpl; intros H; try discriminate.
  injection H as <-. eauto.
Qed.

Lemma empty_then_some s segs :
  Re.empty_then (k s) = Some segs ->
  exists rest, segs = EmptyString :: rest /\ good rest.
Proof.
  unfold Re.empty_then. destruct (k s) as [rest|] eqn:E; simpl; intros H;
    try discriminate.
  injection H as <-. eauto.
Qed.

Lemma one_some s segs :
  Re.one p k s = Some segs ->
  exists seg rest, segs = seg :: rest /\ fits (Re.One p) seg = true /\ good rest.
Proof.
  destruct s as [|c s']; simpl; try discriminate.
  destruct (p c) eqn:Hc; try discriminate.
  destruct (k s') as [rest|] eqn:E; simpl; intros H; try discriminate.
  injection H as <-. exists (String c EmptyString), rest. simpl. eauto.
Qed.

Lemma opt_some s segs :
  Re.opt p k s = Some segs ->
  exists seg rest, segs = seg :: rest /\ fits (Re.Opt p) seg = true /\ good rest.
Proof.
  unfold Re.opt, Re.orelse. destruct (Re.one p k s) as [r|] eqn:E.
  - intros H. injection H as <-.
    destruct (one_some _ E) as (seg & rest & -> & Hfit & Hrest).
    exists seg, rest. repeat split; auto.
    simpl in *. destruct seg as [|c [|]]; auto.
  - intros H. destruct (empty_then_some _ H) as (rest & -> & Hrest).
    exists EmptyString, rest. auto.
Qed.

Lemma star_some s segs :
  Re.star p k s = Some segs ->
  exists seg rest,
    segs = seg :: rest /\ PyStr.all_char p seg = true /\ good rest.
Proof.
  revert segs. induction s as [|c s' IH]; simpl; intros segs H.
  - destruct (empty_then_some _ H) as (rest & -> & Hrest).
    exists EmptyString, rest. auto.
  - destruct (p c) eqn:Hc.
    + unfold Re.orelse in H.
      destruct (Re.push c (Re.star p k s')) as [r|] eqn:E.
      * injection H as <-.
        destruct (push_some _ _ E) as (seg & rest & Hs & ->).
        destruct (IH _ Hs) as (seg' & rest' & Heq & Hall & Hrest).
        injection Heq as <- <-.
        exists (String c seg), rest. simpl. rewrite Hc, Hall. auto.
      * destruct (empty_then_some _ H) as (rest & -> & Hrest).
        exists EmptyString, rest. auto.
    + destruct (empty_then_some _ H) as (rest & -> & Hrest).
      exists EmptyString, rest. auto.
Qed.

Lemma plus_some s segs :
  Re.plus p k s = Some segs ->
  exists seg rest, segs = seg :: rest /\ fits (Re.Plus p) seg = true /\ good rest.
Proof.
  destruct s as [|c s']; simpl; try discriminate.
  destruct (p c) eqn:Hc; try discriminate.
  intros H. destruct (push_some _ _ H) as (seg & rest & Hs & ->).
  destruct (star_some _ Hs) as (seg' & rest' & Heq & Hall & Hrest).
  injection Heq as <- <-.
  exists (String c seg), rest. simpl. rewrite Hc, Hall. auto.
Qed.

Lemma lazy_star_some s segs :
  Re.lazy_star p k s = Some segs ->
  exists seg rest,
    segs = seg :: rest /\ PyStr.all_char p seg = true /\ good rest.
Proof.
  revert segs. induction s as [|c s' IH]; simpl; intros segs H;
    unfold Re.orelse in H.
  - destruct (Re.empty_then (k EmptyString)) as [r|] eqn:E; try discriminate.
    injection H as <-.
    destruct (empty_then_some _ E) as (rest & -> & Hrest).
    exists EmptyString, rest. auto.
  - destruct (Re.empty_then (k (String c s'))) as [r|] eqn:E.
    + injection H as <-.
      destruct (empty_then_some _ E) as (rest & -> & Hrest).
      exists EmptyString, rest. auto.
    + destruct (p c) eqn:Hc; try discriminate.
      destruct (push_some _ _ H) as (seg & rest & Hs & ->).
      destruct (IH _ Hs) as (seg' & rest' & Heq & Hall & Hrest).
      injection Heq as <- <-.
      exists (String c seg), rest. simpl. rewrite Hc, Hall. auto.
Qed.

Lemma lazy_plus_some s segs :
  Re.lazy_plus p k s = Some segs ->
  exists seg rest,
    segs = seg :: rest /\ fits (Re.LazyPlus p) seg = true /\ good rest.
Proof.
  destruct s as [|c s']; simpl; try discriminate.
  destruct (p c) eqn:Hc; try discriminate.
  intros H. destruct (push_some _ _ H) as (seg & rest & Hs & ->).
  destruct (lazy_star_some _ Hs) as (seg' & rest' & Heq & Hall & Hrest).
  injection Heq as <- <-.
  exists (String c seg), rest. simpl. rewrite Hc, Hall. auto.
Qed.

End MatchFacts.

(** A match consumes, item by item, texts that fit the items. *)
Lemma match_here_fits pat :
  forall s segs, Re.match_here pat s = Some segs -> fits_pattern pat segs.
Proof.
  induction pat as [|it rest IH]; simpl; intros s segs H.
  - injection H as <-. constructor.
  - destruct it.
    + destruct (one_some _ _ _ IH _ H) as (seg & r & -> & Hf & Hr).
      constructor; auto.
    + destruct (opt_some _ _ _ IH _ H) as (seg & r & -> & Hf & Hr).
      constructor; auto.
    + destruct (star_some _ _ _ IH _ H) as (seg & r & -> & Hf & Hr).
      constructor; auto.
    + destruct (plus_some _ _ _ IH _ H) as (seg & r & -> & Hf & Hr).
      constructor; auto.
    + destruct (lazy_plus_some _ _ _ IH _ H) as (seg & r & -> & Hf & Hr).
      constructor; auto.
    + destruct (empty_then_some _ _ IH _ H) as (r & -> & Hr).
      constructor; auto.
    + destruct (empty_then_some _ _ IH _ H) as (r & -> & Hr).
      constructor; auto.
Qed.

Lemma search_fits pat :
  forall s segs, Re.search pat s = Some segs -> fits_pattern pat segs.
Proof.
  induction s as [|c s' IH]; simpl; intros segs H; unfold Re.orelse in H.
  - destruct (Re.match_here pat EmptyString) eqn:E; try discriminate.
    injection H as <-. eapply match_here_fits; eauto.
  - destruct (Re.match_here pat (String c s')) eqn:E.
    + injection H as <-. eapply match_here_fits; eauto.
    + auto.
Qed.

Lemma findall_from_fits pat :
  forall s skip, Forall (fits_pattern pat) (Re.findall_from pat skip s).
Proof.
  induction s as [|c s' IH]; intros skip; destruct skip; simpl; auto.
  - destruct (Re.match_here pat EmptyString) eqn:E; auto.
    constructor; auto. eapply match_here_fits; eauto.
  - destruct (Re.match_here pat (String c s')) eqn:E; auto.
    constructor; auto. eapply match_here_fits; eauto.
Qed.

(** ** Literals *)

Lemma skip_decimals_app d r :
  PyStr.all_char PyStr.isdecimal d = true ->
  Py.skip_decimals (d ++ r) = Py.skip_decimals r.
Proof.
  induction d as [|c d IH]; simpl; auto.
  intros H. apply andb_true_iff in H as [Hc Hd]. rewrite Hc. auto.
Qed.

Lemma skip_decimals_all d :
  PyStr.all_char PyStr.isdecimal d = true -> Py.skip_decimals d = EmptyString.
Proof.
  induction d as [|c d IH]; simpl; auto.
  intros H. apply andb_true_iff in H as [Hc Hd]. rewrite Hc. auto.
Qed.

Lemma decimal_not_sign c :
  PyStr.isdecimal c = true ->
  Ascii.eqb c "-"%char || Ascii.eqb c "+"%char = false.
Proof.
  intros H.
  destruct (Ascii.eqb c "-"%char) eqn:E1.
  { apply Ascii.eqb_eq in E1. subst. discriminate. }
  destruct (Ascii.eqb c "+"%char) eqn:E2.
  { apply Ascii.eqb_eq in E2. subst. discriminate. }
  reflexivity.
Qed.

Lemma length_append (a b : string) :
  String.length (a ++ b) = String.length a + String.length b.
Proof. induction a; simpl; auto. Qed.

Lemma empty_of_length (s : string) :
  (String.length s =? 0)%nat = true -> s = EmptyString.
Proof. destruct s; simpl; auto; discriminate. Qed.

Lemma chr_true c c' : Re.chr c c' = true -> c' = c.
Proof. unfold Re.chr. intros H. apply Ascii.eqb_eq in H. auto. Qed.

(** An unsigned run of digits with an optional point and fraction. *)
Lemma unsigned_number_literal d dt d2 :
  fits (Re.Plus PyStr.isdecimal) d = true ->
  fits (Re.Opt (Re.chr "."%char)) dt = true ->
  fits (Re.Star PyStr.isdecimal) d2 = true ->
  Py.unsigned (d ++ dt ++ d2) = (d ++ dt ++ d2)%string /\
  Py.float_literal (d ++ dt ++ d2) = true.
Proof.
  intros Hd Hdt Hd2. cbn [fits] in Hd, Hdt, Hd2.
  apply andb_true_iff in Hd as [Hd Hne].
  destruct d as [|c d]; [discriminate|]. clear Hne.
  cbn [PyStr.all_char] in Hd. apply andb_true_iff in Hd as [Hc Hd].
  assert (Hu : Py.unsigned (String c d ++ dt ++ d2) = (String c d ++ dt ++ d2)%string).
  { cbn [append Py.unsigned]. rewrite (decimal_not_sign _ Hc). reflexivity. }
  split; [exact Hu|].
  unfold Py.float_literal. rewrite Hu.
  assert (Hs : Py.skip_decimals (String c d ++ dt ++ d2)
               = Py.skip_decimals (dt ++ d2)).
  { cbn [append Py.skip_decimals]. rewrite Hc. apply skip_decimals_app, Hd. }
  rewrite Hs.
  destruct dt as [|c' [|]]; try discriminate.
  - cbn [append]. rewrite (skip_decimals_all _ Hd2). reflexivity.
  - apply chr_true in Hdt. subst c'.
    cbn [append Py.skip_decimals]. 
    change (PyStr.isdecimal "."%char) with false. cbv iota.
    rewrite (skip_decimals_all _ Hd2).
    rewrite Ascii.eqb_refl. cbn [String.length Nat.eqb andb].
    rewrite !length_append. cbn [String.length].
    replace (String.length d2 =? String.length d + S (String.length d2))%nat
      with false; [reflexivity|].
    symmetry. apply Nat.eqb_neq. lia.
Qed.

(** The text of a group of the coordinate pattern is a literal [float]
    reads. *)
Lemma number_is_float_literal sg d dt d2 :
  fits (Re.Opt (Re.chr "-"%char)) sg = true ->
  fits (Re.Plus PyStr.isdecimal) d = true ->
  fits (Re.Opt (Re.chr "."%char)) dt = true ->
  fits (Re.Star PyStr.isdecimal) d2 = true ->
  Py.float_literal (sg ++ d ++ dt ++ d2) = true.
Proof.
  intros Hsg Hd Hdt Hd2.
  destruct (unsigned_number_literal _ _ _ Hd Hdt Hd2) as [Hu Hm].
  cbn [fits] in Hsg.
  destruct sg as [|c [|]]; try discriminate.
  - exact Hm.
  - apply chr_true in Hsg. subst c.
    unfold Py.float_literal in *. rewrite Hu in Hm.
    cbn [append Py.unsigned]. change (Ascii.eqb "-"%char "-"%char) with true.
    cbn [orb]. exact Hm.
Qed.

Ltac split_match H :=
  repeat match type of H with
         | Forall2 _ (_ :: _) _ =>
             let seg := fresh "seg" in
             let Hf := fresh "Hfit" in
             let H' := fresh "Hrest" in
             inversion H as [|? seg ? ? Hf H']; subst; clear H; rename H' into H
         | Forall2 _ [] _ => inversion H; subst; clear H
         end;
  repeat match goal with
         | Hf : fits (Re.Open _) ?s = true |- _ =>
             apply empty_of_length in Hf; subst s
         | Hf : fits (Re.Close _) ?s = true |- _ =>
             apply empty_of_length in Hf; subst s
         end.

Lemma append_empty (s : string) : (s ++ EmptyString)%string = s.
Proof. induction s; simpl; congruence. Qed.

Lemma coord_groups_are_literals segs :
  fits_pattern Router.coord_pattern segs ->
  Py.float_literal (Re.group Router.coord_pattern segs 1) = true
  /\ Py.float_literal (Re.group Router.coord_pattern segs 2) = true.
Proof.
  unfold fits_pattern, Router.coord_pattern, Router.number. cbn [app].
  intros H. split_match H.
  unfold Re.group. cbn [Re.group_from Nat.eqb orb andb negb append].
  rewrite !append_empty. split; apply number_is_float_literal; assumption.
Qed.

Lemma float_of_literal s : Py.float_literal s = true -> Py.float s = Ok (VFloat s).
Proof. unfold Py.float. intros ->. reflexivity. Qed.

Lemma int_of_decimals s :
  fits (Re.Plus PyStr.isdecimal) s = true ->
  Py.int s = Ok (VInt (Py.decimal_value 0 s)).
Proof. unfold Py.int. cbn [fits]. intros ->. reflexivity. Qed.

Lemma tile_groups_are_decimals segs :
  fits_pattern Router.tile_pattern segs ->
  fits (Re.Plus PyStr.isdecimal) (Re.group Router.tile_pattern segs 1) = true
  /\ fits (Re.Plus PyStr.isdecimal) (Re.group Router.tile_pattern segs 2) = true
  /\ fits (Re.Plus PyStr.isdecimal) (Re.group Router.tile_pattern segs 3) = true.
Proof.
  unfold fits_pattern, Router.tile_pattern. cbn [app Re.lit].
  intros H. split_match H.
  unfold Re.group. cbn [Re.group_from Nat.eqb orb andb negb append].
  rewrite !append_empty. auto.
Qed.

(** ** The extractors and the router return *)

Lemma contains_index p s :
  PyStr.contains p s = true -> exists n, PyStr.index p s = Some n.
Proof.
  induction s as [|c s IH]; cbn [PyStr.contains PyStr.index]; intros H.
  - rewrite orb_false_r in H. rewrite H. eauto.
  - destruct (PyStr.startswith (String c s) p); [eauto|].
    destruct (IH H) as [n ->]. simpl. eauto.
Qed.

Lemma first_contained_in words s w :
  Router.first_contained words s = Some w -> PyStr.contains w s = true.
Proof.
  induction words as [|w' words IH]; simpl; [discriminate|].
  destruct (PyStr.contains w' s) eqn:E; auto.
  intros H. injection H as <-. exact E.
Qed.

Lemma _extract_location_returns query :
  exists location, Router._extract_location query = Ok location.
Proof.
  unfold Router._extract_location.
  destruct (Router.first_contained _ _) as [prefix|] eqn:E; [|eauto].
  apply first_contained_in, contains_index in E as [n ->]. simpl. eauto.
Qed.

Lemma _extract_coords_returns query :
  exists lat lon,
    Router._extract_coords query = Ok (VDict [("lat", lat); ("lon", lon)]).
Proof.
  unfold Router._extract_coords.
  destruct (Re.search Router.coord_pattern query) as [m|] eqn:E; [|eauto].
  apply search_fits, coord_groups_are_literals in E as [H1 H2].
  rewrite (float_of_literal _ H1), (float_of_literal _ H2). simpl. eauto.
Qed.

Lemma _extract_location_for_poi_returns query :
  exists category lat lon,
    Router._extract_location_for_poi query
    = Ok (VDict [("query", VStr category); ("lat", lat); ("lon", lon)]).
Proof.
  unfold Router._extract_location_for_poi.
  destruct (_extract_location_returns query) as [location ->].
  destruct (_extract_coords_returns query) as (lat & lon & ->).
  simpl. eauto.
Qed.

Lemma _extract_tile_info_returns query :
  exists tile_info, Router._extract_tile_info query = Ok tile_info.
Proof.
  unfold Router._extract_tile_info.
  destruct (Re.search Router.tile_pattern _) as [m|] eqn:E; [|eauto].
  apply search_fits, tile_groups_are_decimals in E as (H1 & H2 & H3).
  rewrite (int_of_decimals _ H1), (int_of_decimals _ H2), (int_of_decimals _ H3).
  simpl. eauto.
Qed.

Lemma coords_found_are_literals query :
  Forall (fun c => Py.float_literal (fst c) = true
                   /\ Py.float_literal (snd c) = true)
         (Router.coords_found query).
Proof.
  unfold Router.coords_found, Re.findall.
  apply Forall_map. eapply Forall_impl; [|apply findall_from_fits].
  intros m Hm. simpl. apply coord_groups_are_literals, Hm.
Qed.

(** The distance rule on a list of at least two coordinate pairs. *)
Lemma distance_of_two_pairs c0 c1 rest :
  Forall (fun c => Py.float_literal (fst c) = true
                   /\ Py.float_literal (snd c) = true)
         (c0 :: c1 :: rest) ->
  (p0 <- Py.item (c0 :: c1 :: rest) 0 ;;
   start_lat <- Py.float (fst p0) ;;
   start_lon <- Py.float (snd p0) ;;
   p1 <- Py.item (c0 :: c1 :: rest) 1 ;;
   end_lat <- Py.float (fst p1) ;;
   end_lon <- Py.float (snd p1) ;;
   Ok ("routing", "get_distance",
       VDict [("start_lat", start_lat); ("start_lon", start_lon);
              ("end_lat", end_lat); ("end_lon", end_lon)]))%exc
  = Ok ("routing", "get_distance",
        VDict [("start_lat", VFloat (fst c0)); ("start_lon", VFloat (snd c0));
               ("end_lat", VFloat (fst c1)); ("end_lon", VFloat (snd c1))]).
Proof.
  intros H. inversion H as [|? ? [H0 H0'] H']; subst.
  inversion H' as [|? ? [H1 H1'] _]; subst.
  unfold Py.item. cbn [nth_error Exc.of_option Exc.bind].
  rewrite (float_of_literal _ H0), (float_of_literal _ H0').
  cbn [Exc.bind].
  rewrite (float_of_literal _ H1), (float_of_literal _ H1').
  reflexivity.
Qed.

Lemma _route_query_returns query :
  exists d, Router._route_query query = Ok d.
Proof.
  unfold Router._route_query.
  destruct (PyStr.any_in Router.geo_words _).
  { destruct (_ || _).
    - destruct (_extract_coords_returns query) as (lat & lon & ->). simpl. eauto.
    - eauto. }
  destruct (PyStr.any_in Router.poi_words _).
  { destruct (_extract_location_for_poi_returns query) as (t & lat & lon & ->).
    simpl. eauto. }
  destruct (PyStr.any_in Router.routing_words _).
  { destruct (_ || _); [eauto|].
    destruct (PyStr.contains "distance" _); [|eauto].
    pose proof (coords_found_are_literals query) as Hlit.
    destruct (Router.coords_found query) as [|c0 [|c1 rest]];
      cbn [List.length Nat.leb]; eauto.
    rewrite (distance_of_two_pairs Hlit). eauto. }
  destruct (PyStr.any_in Router.weather_words _); [|eauto].
  destruct (_ || _).
  { destruct (_extract_tile_info_returns query) as [t ->]. simpl. eauto. }
  destruct (_ && _).
  { destruct (_extract_coords_returns query) as (lat & lon & ->). simpl. eauto. }
  destruct (_extract_location_returns query) as [location ->]. simpl. eauto.
Qed.

(** ** The router *)

(** The example queries of [main] in [agent.py]. *)
Example main_find_cafes :
  Router._route_query "Find cafes near AUB"
  = Ok ("geo", "search_poi",
        VDict [("query", VStr "cafe"); ("lat", VFloat "33.8938");
               ("lon", VFloat "35.5018")]).
Proof. vm_compute. reflexivity. Qed.

Example main_geocode :
  Router._route_query "Geocode American University of Beirut"
  = Ok ("geo", "geocode",
        VDict [("address", VStr "American University of Beirut")]).
Proof. vm_compute. reflexivity. Qed.

Example main_weather :
  Router._route_query "What's the weather in Beirut?"
  = Ok ("weather", "get_weather", VDict [("location", VStr "Beirut?")]).
Proof. vm_compute. reflexivity. Qed.

Example main_route :
  Router._route_query "Get route from Beirut to Tripoli"
  = Ok ("routing", "get_route",
        VDict [("start_lat", VFloat "33.8938"); ("start_lon", VFloat "35.5018");
               ("end_lat", VFloat "34.4344"); ("end_lon", VFloat "35.8444")]).
Proof. vm_compute. reflexivity. Qed.

Example main_temperature :
  Router._route_query "Temperature at 33.8938, 35.5018"
  = Ok ("weather", "get_temperature",
        VDict [("lat", VFloat "33.8938"); ("lon", VFloat "35.5018")]).
Proof. vm_compute. reflexivity. Qed.

(** Backtracking and resumption of [re.findall] on the coordinate pattern. *)
Example findall_backtracks :
  Router.coords_found "12.34.56 , -7. and x-3,4.5.6"
  = [("34.56", "-7."); ("-3", "4.5")].
Proof. vm_compute. reflexivity. Qed.

Example from_to_is_lazy_then_greedy :
  Router._extract_two_locations "Fastest route from  Beirut  to Tripoli to Saida"
  = VDict [("start", VStr "beirut"); ("end", VStr "tripoli to saida")].
Proof. vm_compute. reflexivity. Qed.

Example tile_is_read :
  Router._extract_tile_info "Weather overlay for tile_12, 7 zoom 5"
  = Ok (VDict [("tile_x", VInt 12); ("tile_y", VInt 7); ("zoom", VInt 5)]).
Proof. vm_compute. reflexivity. Qed.

(** C3, as the code has it: a query that triggers neither the lookup rule
    nor the place-search rule, that is not about the fastest or quickest
    route, that contains "distance" in any letter case and in which
    [re.findall] finds at least two coordinate pairs is routed to
    [get_distance] of the routing server, from the first pair to the
    second. *)
Theorem distance_rule_takes_first_two_pairs query c0 c1 rest :
  PyStr.any_in Router.geo_words (PyStr.lower query) = false ->
  PyStr.any_in Router.poi_words (PyStr.lower query) = false ->
  PyStr.contains "fastest" (PyStr.lower query) = false ->
  PyStr.contains "quickest" (PyStr.lower query) = false ->
  PyStr.contains "distance" (PyStr.lower query) = true ->
  Router.coords_found query = c0 :: c1 :: rest ->
  Router._route_query query
  = Ok ("routing", "get_distance",
        VDict [("start_lat", VFloat (fst c0)); ("start_lon", VFloat (snd c0));
               ("end_lat", VFloat (fst c1)); ("end_lon", VFloat (snd c1))]).
Proof.
  intros Hgeo Hpoi Hfast Hquick Hdist Hfound.
  unfold Router._route_query. rewrite Hgeo, Hpoi, Hfast, Hquick, Hdist.
  assert (Hrouting : PyStr.any_in Router.routing_words (PyStr.lower query) = true).
  { unfold PyStr.any_in, Router.routing_words. cbn [existsb].
    rewrite Hdist. rewrite !orb_true_r. reflexivity. }
  rewrite Hrouting. cbn [orb].
  pose proof (coords_found_are_literals query) as Hlit.
  rewrite Hfound in *. cbn [List.length Nat.leb].
  apply distance_of_two_pairs, Hlit.
Qed.

Lemma distance_rule_takes_first_two_pairs_witness :
  Router._route_query distance_query
  = Ok ("routing", "get_distance",
        VDict [("start_lat", VFloat "33.8938"); ("start_lon", VFloat "35.5018");
               ("end_lat", VFloat "34.4344"); ("end_lon", VFloat "35.8444")]).
Proof.
  apply (@distance_rule_takes_first_two_pairs distance_query
           ("33.8938", "35.5018") ("34.4344", "35.8444") []);
    vm_compute; reflexivity.
Defined.

(** C3, as stated, fails: this query contains "distance" and two coordinate
    pairs, and the place-search rule, which comes first, takes it for its
    word "find". *)
Lemma distance_after_find_is_place_search :
  let query := "Find the distance between 33.8938,35.5018 and 34.4344,35.8444" in
  PyStr.contains "distance" query = true
  /\ Router.coords_found query
     = [("33.8938", "35.5018"); ("34.4344", "35.8444")]
  /\ Router._route_query query
     = Ok ("geo", "search_poi",
           VDict [("query", VStr "place"); ("lat", VFloat "33.8938");
                  ("lon", VFloat "35.5018")])
  /\ forall arguments,
       Router._route_query query <> Ok ("routing", "get_distance", arguments).
Proof.
  cbv zeta. repeat split; try (vm_compute; reflexivity).
  intros arguments H. vm_compute in H. discriminate H.
Qed.

(** C6, as the code has it: [_extract_two_coords] returns the two fixed
    locations, Beirut as start and Tripoli as end, whatever the text. *)
Theorem _extract_two_coords_is_constant query :
  Router._extract_two_coords query
  = VDict [("start_lat", VFloat "33.8938"); ("start_lon", VFloat "35.5018");
           ("end_lat", VFloat "34.4344"); ("end_lon", VFloat "35.8444")].
Proof. reflexivity. Qed.

(** C6, as stated, fails: this text has two coordinate pairs, and the
    extraction returns the fixed locations instead of them. *)
Lemma _extract_two_coords_ignores_pairs :
  let text := "route from 1.5,2.5 to 3.5,4.5" in
  Router.coords_found text = [("1.5", "2.5"); ("3.5", "4.5")]
  /\ Router._extract_two_coords text
     <> VDict [("start_lat", VFloat "1.5"); ("start_lon", VFloat "2.5");
               ("end_lat", VFloat "3.5"); ("end_lon", VFloat "4.5")].
Proof.
  cbv zeta. split; [vm_compute; reflexivity|].
  intros H. vm_compute in H. discriminate H.
Qed.



(** C9: "Find cafes near AUB" is routed to [search_poi] of the geo server
    for "cafe" around the fixed default coordinates, and so is every query
    that the lookup rule does not take, that contains "cafe" and in which
    the coordinate pattern matches nowhere. *)
Theorem cafes_are_searched_at_default query :
  PyStr.any_in Router.geo_words (PyStr.lower query) = false ->
  PyStr.contains "cafe" (PyStr.lower query) = true ->
  Re.search Router.coord_pattern query = None ->
  Router._route_query query
  = Ok ("geo", "search_poi",
        VDict [("query", VStr "cafe"); ("lat", Router.beirut_lat);
               ("lon", Router.beirut_lon)])
  /\ Router._route_query "Find cafes near AUB"
     = Ok ("geo", "search_poi",
           VDict [("query", VStr "cafe"); ("lat", Router.beirut_lat);
                  ("lon", Router.beirut_lon)]).
Proof.
  intros Hgeo Hcafe Hnone. split; [|vm_compute; reflexivity].
  unfold Router._route_query. rewrite Hgeo.
  assert (Hpoi : PyStr.any_in Router.poi_words (PyStr.lower query) = true).
  { unfold PyStr.any_in, Router.poi_words. cbn [existsb].
    rewrite Hcafe. rewrite !orb_true_r. reflexivity. }
  rewrite Hpoi. unfold Router._extract_location_for_poi.
  destruct (_extract_location_returns query) as [location ->].
  unfold Router._extract_coords. rewrite Hnone.
  cbn [Exc.bind Router.first_contained]. rewrite Hcafe. reflexivity.
Qed.

Lemma cafes_are_searched_at_default_witness :
  Router._route_query "Where can I get a coffee? Any cafe will do"
  = Ok ("geo", "search_poi",
        VDict [("query", VStr "cafe"); ("lat", VFloat "33.8938");
               ("lon", VFloat "35.5018")]).
Proof.
  apply (@cafes_are_searched_at_default
           "Where can I get a coffee? Any cafe will do");
    vm_compute; reflexivity.
Defined.

(** ** The dispatchers *)

Ltac by_cases_of_dispatch tool_name arguments :=
  repeat match goal with
         | |- context [String.eqb tool_name ?s] =>
             destruct (String.eqb tool_name s)
         end;
  repeat match goal with
         | |- context [Py.getitem arguments ?k] =>
             destruct (Py.getitem arguments k)
         end;
  cbn [Exc.bind fst snd calls].

Ltac no_call_made H :=
  exfalso; apply (f_equal (@List.length call)) in H;
  rewrite length_app in H; cbn [List.length] in H; lia.

Ltac close_dispatch_case :=
  cbn [fst snd calls];
  match goal with
  | |- context [match ?srv ?cs ?c with Ok _ => _ | Raise _ => _ end] =>
      let E := fresh "E" in
      destruct (srv cs c) eqn:E; cbn [fst snd calls];
      (split; [eauto|]);
      intros c' msg' Hc Hs;
      apply app_inv_head in Hc; injection Hc as <-;
      rewrite E in Hs; try discriminate Hs; injection Hs as <-; reflexivity
  | |- _ =>
      split; [eauto|]; intros c' msg' Hc Hs; no_call_made Hc
  end.

Section Dispatch.

Variable server : list call -> call -> exc pyval.

Lemma call_tool_contains_exceptions :
  contains_exceptions server (call_tool server).
Proof.
  intros tool_name arguments w.
  unfold call_tool, Eff.try_except, Eff.bind, arg, Eff.lift, invoke, Eff.ret.
  by_cases_of_dispatch tool_name arguments; close_dispatch_case.
Qed.

Lemma _call_geo_tool_contains_exceptions :
  contains_exceptions server (_call_geo_tool server).
Proof.
  intros tool_name arguments w.
  unfold _call_geo_tool, Eff.try_except, Eff.bind, arg, Eff.lift, invoke,
    Eff.ret.
  by_cases_of_dispatch tool_name arguments; close_dispatch_case.
Qed.

Lemma _call_routing_tool_contains_exceptions :
  contains_exceptions server (_call_routing_tool server).
Proof.
  intros tool_name arguments w.
  unfold _call_routing_tool, Eff.try_except, Eff.bind, arg, Eff.lift, invoke,
    Eff.ret.
  by_cases_of_dispatch tool_name arguments; close_dispatch_case.
Qed.

Lemma _call_weather_tool_contains_exceptions :
  contains_exceptions server (_call_weather_tool server).
Proof.
  intros tool_name arguments w.
  unfold _call_weather_tool, Eff.try_except, Eff.bind, arg, Eff.lift, invoke,
    Eff.ret.
  by_cases_of_dispatch tool_name arguments; close_dispatch_case.
Qed.

End Dispatch.

Lemma catalogue_contains_exceptions server dispatch tools :
  In (dispatch, tools) (catalogue server) ->
  contains_exceptions server dispatch.
Proof.
  unfold catalogue. cbn [In].
  intros [H|[H|[H|[H|[]]]]]; injection H as <- <-.
  - apply call_tool_contains_exceptions.
  - apply _call_geo_tool_contains_exceptions.
  - apply _call_routing_tool_contains_exceptions.
  - apply _call_weather_tool_contains_exceptions.
Qed.

(** C2, as the code has it: when the server method a dispatcher invokes
    raises an exception, the dispatcher returns the mapping whose only key is
    [error], holding the message of the exception; and no call of a
    dispatcher raises. *)
Theorem dispatcher_turns_exception_into_error
  server dispatch tools tool_name arguments w c msg :
  In (dispatch, tools) (catalogue server) ->
  calls (snd (dispatch tool_name arguments w)) = calls w ++ [c] ->
  server (calls w) c = Raise msg ->
  fst (dispatch tool_name arguments w) = Ok (VDict [("error", VStr msg)])
  /\ forall any_tool any_arguments any_world,
       exists r, fst (dispatch any_tool any_arguments any_world) = Ok r.
Proof.
  intros Hin Hc Hs.
  pose proof (catalogue_contains_exceptions Hin) as H. split.
  - destruct (H tool_name arguments w) as [_ Herr]. apply (Herr c msg Hc Hs).
  - intros t a w'. apply (H t a w').
Qed.

Lemma dispatcher_turns_exception_into_error_witness :
  fst (call_tool (Stub.fails "Connection timed out") "geocode"
         (VDict [("address", VStr "AUB")]) Stub.empty_world)
  = Ok (VDict [("error", VStr "Connection timed out")]).
Proof.
  apply (@dispatcher_turns_exception_into_error
           (Stub.fails "Connection timed out")
           (call_tool (Stub.fails "Connection timed out")) _define_tools
           "geocode" (VDict [("address", VStr "AUB")]) Stub.empty_world
           (_geocode (VStr "AUB")) "Connection timed out").
  - left. reflexivity.
  - reflexivity.
  - reflexivity.
Defined.

(** C2, as stated, fails: the result for a raised exception has no
    [success] entry, and its [error] is empty when the exception has no
    message, as [TimeoutError()] has. *)
Lemma error_result_is_not_a_flagged_failure :
  let result :=
    fst (call_tool (Stub.fails EmptyString) "geocode"
           (VDict [("address", VStr "AUB")]) Stub.empty_world) in
  Stub.fails EmptyString [] (_geocode (VStr "AUB")) = Raise EmptyString
  /\ result = Ok (VDict [("error", VStr EmptyString)])
  /\ forall r, result = Ok r -> ~ flagged_failure r.
Proof.
  cbv zeta. repeat split.
  intros r H. vm_compute in H. injection H as <-.
  intros (items & c & msg & Hr & Hsuccess & _).
  injection Hr as <-. discriminate Hsuccess.
Qed.

Ltac name_missing :=
  match goal with
  | H : Py.assoc ?k _ = None |- _ =>
      exists k; split; [simpl; tauto | split; [exact H | reflexivity]]
  end.

Ltac all_present H :=
  let k := fresh "k" in
  let Hin := fresh "Hin" in
  let Hnone := fresh "Hnone" in
  destruct H as (k & Hin & Hnone); simpl in Hin;
  repeat (destruct Hin as [<-|Hin]; [congruence|]); contradiction.

Ltac by_cases_of_arguments items :=
  unfold Eff.try_except, Eff.bind, arg, Eff.lift, invoke, Eff.ret, Py.getitem;
  repeat match goal with
         | |- context [Py.assoc ?k items] =>
             let E := fresh "E" in destruct (Py.assoc k items) eqn:E
         end;
  cbn [Exc.of_option].

(** C4: for each dispatcher and each tool it knows, an argument mapping
    that lacks a required argument is answered with an error result that
    names a lacking argument, in a world left as it was: no server method is
    called. *)
Theorem missing_argument_is_reported
  server dispatch tools tool_name required items w :
  In (dispatch, tools) (catalogue server) ->
  In (tool_name, required) tools ->
  (exists k, In k required /\ Py.assoc k items = None) ->
  exists k,
    In k required /\ Py.assoc k items = None
    /\ dispatch tool_name (VDict items) w
       = (Ok (VDict [("error", VStr ("'" ++ k ++ "'"))]), w).
Proof.
  unfold catalogue. cbn [In].
  intros [H|[H|[H|[H|[]]]]] Htool Hmissing; injection H as <- <-;
    cbn [In _define_tools geo_tools routing_tools weather_tools] in Htool;
    repeat (destruct Htool as [Htool|Htool];
            [injection Htool as <- <-|]); try contradiction;
    unfold call_tool, _call_geo_tool, _call_routing_tool, _call_weather_tool;
    cbn [String.eqb Ascii.eqb Bool.eqb andb];
    by_cases_of_arguments items;
    first [name_missing | all_present Hmissing].
Qed.

Lemma missing_argument_is_reported_witness :
  exists k,
    In k ["lat"; "lon"] /\ Py.assoc k [("lat", VFloat "33.9")] = None
    /\ call_tool (Stub.replies Stub.found) "reverse_geocode"
         (VDict [("lat", VFloat "33.9")]) Stub.empty_world
       = (Ok (VDict [("error", VStr ("'" ++ k ++ "'"))]), Stub.empty_world).
Proof.
  apply (@missing_argument_is_reported (Stub.replies Stub.found)
           (call_tool (Stub.replies Stub.found)) _define_tools).
  - left. reflexivity.
  - right. left. reflexivity.
  - exists "lon". split; [simpl; tauto | reflexivity].
Defined.


(** ** The chat loop *)

Section Chat.

Variable server : list call -> call -> exc pyval.
Variable engine : list message -> exc completion.
Variable json_loads : string -> exc pyval.
Variable json_dumps : pyval -> string.

(** A call of the dispatcher returns, and only adds to the server calls. *)
Lemma call_tool_effect tool_name arguments w :
  exists r cs,
    call_tool server tool_name arguments w
    = (Ok r, World (history w) (queries w) (calls w ++ cs)).
Proof.
  destruct w as [h qs cs0].
  unfold call_tool, Eff.try_except, Eff.bind, arg, Eff.lift, invoke, Eff.ret.
  by_cases_of_dispatch tool_name arguments;
    cbn [history queries calls];
    try match goal with
        | |- context [match ?srv ?cs ?c with Ok _ => _ | Raise _ => _ end] =>
            destruct (srv cs c); eexists; exists [c]; reflexivity
        end;
    eexists; exists []; rewrite app_nil_r; reflexivity.
Qed.

(** When all argument texts parse, the requests are answered one by one. *)
Lemma run_tool_calls_effect requests :
  Forall (fun tc => exists v, json_loads (tc_arguments tc) = Ok v) requests ->
  forall w,
    exists msgs cs,
      run_tool_calls server json_loads json_dumps requests w
      = (Ok tt, World (history w ++ msgs) (queries w) (calls w ++ cs))
      /\ answers requests msgs.
Proof.
  induction 1 as [|tc rest [v Hv] _ IH]; intros w.
  - exists [], []. rewrite !app_nil_r. destruct w. split; [reflexivity|].
    constructor.
  - cbn [run_tool_calls]. unfold Eff.bind at 1, Eff.lift. rewrite Hv.
    unfold Eff.bind at 1.
    destruct (call_tool_effect (tc_name tc) v w) as (r & cs & ->).
    unfold Eff.bind at 1, Eff.append. cbn [history queries calls].
    destruct (IH (World (history w ++ [Tool (tc_id tc) (tc_name tc) (json_dumps r)])
                    (queries w) (calls w ++ cs)))
      as (msgs & cs' & -> & Hans).
    cbn [history queries calls].
    exists (Tool (tc_id tc) (tc_name tc) (json_dumps r) :: msgs), (cs ++ cs').
    rewrite <- !app_assoc. split; [reflexivity|].
    constructor; eauto.
Qed.

Hypothesis parse : arguments_parse json_loads engine.

Lemma chat_loop_rounds n :
  forall w,
    exists outcome w' qs,
      chat_loop server engine json_loads json_dumps n w = (outcome, w')
      /\ queries w' = queries w ++ qs
      /\ rounds engine (history w) qs (history w').
Proof.
  induction n as [|n IH]; intros w.
  - exists (Ok retry_message), w, []. rewrite app_nil_r.
    repeat split. constructor.
  - cbn [chat_loop]. unfold Eff.bind at 1, create.
    destruct (engine (history w)) as [m|e] eqn:E.
    + unfold Eff.bind at 1, Eff.append. cbn [history queries calls].
      destruct (tool_calls m) as [|tc tcs] eqn:Etc.
      * assert (Hr : rounds engine (history w) [history w]
                       (history w ++ [Assistant (content m) []])).
        { apply rounds_step with (m := m) (msgs := []); auto.
          - rewrite Etc. constructor.
          - rewrite Etc. constructor. }
        destruct (content m) as [[|c text]|];
          eexists; eexists; exists [history w];
          (split; [reflexivity|]); cbn [history queries]; auto.
      * unfold Eff.bind at 1.
        pose proof (parse E) as Hp. rewrite Etc in Hp.
        destruct (run_tool_calls_effect Hp
                    (World (history w ++ [Assistant (content m) (tc :: tcs)])
                       (queries w ++ [history w]) (calls w)))
          as (msgs & cs & -> & Hans).
        cbn [history queries calls].
        destruct (IH (World ((history w ++ [Assistant (content m) (tc :: tcs)]) ++ msgs)
                        (queries w ++ [history w]) (calls w ++ cs)))
          as (outcome & w' & qs & -> & Hq & Hr).
        cbn [history queries calls] in Hq, Hr.
        exists outcome, w', (history w :: qs). split; [reflexivity|]. split.
        { rewrite Hq. rewrite <- app_assoc. reflexivity. }
        apply rounds_step with (m := m) (msgs := msgs); auto.
        { rewrite Etc. exact Hans. }
        rewrite Etc. rewrite <- app_assoc in Hr. exact Hr.
    + eexists. eexists. exists [history w]. split; [reflexivity|].
      cbn [history queries]. split; [reflexivity|].
      apply rounds_raise with (e := e). exact E.
Qed.

Hypothesis requests : always_requests engine.

Lemma chat_loop_uses_all_rounds n :
  forall w,
    exists w',
      chat_loop server engine json_loads json_dumps n w
      = (Ok retry_message, w')
      /\ List.length (queries w') = List.length (queries w) + n.
Proof.
  induction n as [|n IH]; intros w.
  - exists w. split; [reflexivity|]. lia.
  - cbn [chat_loop]. unfold Eff.bind at 1, create.
    destruct (requests (history w)) as (m & E & Hne). rewrite E.
    unfold Eff.bind at 1, Eff.append. cbn [history queries calls].
    destruct (tool_calls m) as [|tc tcs] eqn:Etc; [congruence|].
    unfold Eff.bind at 1.
    pose proof (parse E) as Hp. rewrite Etc in Hp.
    destruct (run_tool_calls_effect Hp
                (World (history w ++ [Assistant (content m) (tc :: tcs)])
                   (queries w ++ [history w]) (calls w)))
      as (msgs & cs & -> & Hans).
    cbn [history queries calls].
    destruct (IH (World ((history w ++ [Assistant (content m) (tc :: tcs)]) ++ msgs)
                    (queries w ++ [history w]) (calls w ++ cs)))
      as (w' & -> & Hlen).
    exists w'. split; [reflexivity|].
    rewrite Hlen. cbn [queries]. rewrite length_app. cbn [List.length]. lia.
Qed.

End Chat.


Lemma keeps_asking_parses requests :
  Forall (fun tc => exists v, Json.loads (tc_arguments tc) = Ok v) requests ->
  arguments_parse Json.loads (Stub.keeps_asking requests).
Proof. intros H h m E. injection E as <-. exact H. Qed.






(** C8: when the model answers the first query with a non-empty text and
    asks for no tool, [chat] returns that text as it is, after that one
    query. *)
Theorem plain_answer_ends_chat
  server engine json_loads json_dumps user_message w c text :
  engine (history w ++ [User user_message])
  = Ok (Completion (Some (String c text)) []) ->
  chat server engine json_loads json_dumps user_message w
  = (Ok (String c text),
     World (history w ++ [User user_message]
                     ++ [Assistant (Some (String c text)) []])
           (queries w ++ [history w ++ [User user_message]])
           (calls w)).
Proof.
  intros E. unfold chat, Eff.bind at 1, Eff.append.
  cbn [max_iterations chat_loop]. unfold Eff.bind at 1, create.
  cbn [history queries calls]. rewrite E.
  unfold Eff.bind, Eff.append, Eff.ret. cbn [history queries calls content tool_calls].
  rewrite <- app_assoc. reflexivity.
Qed.

Lemma plain_answer_ends_chat_witness :
  chat (Stub.replies Stub.found) (Stub.answers_at_once "Beirut is sunny today.")
       Json.loads Json.dumps "What's the weather in Beirut?" Stub.empty_world
  = (Ok "Beirut is sunny today.",
     World [User "What's the weather in Beirut?";
            Assistant (Some "Beirut is sunny today.") []]
           [[User "What's the weather in Beirut?"]]
           []).
Proof.
  apply (@plain_answer_ends_chat (Stub.replies Stub.found)
           (Stub.answers_at_once "Beirut is sunny today.")
           Json.loads Json.dumps "What's the weather in Beirut?"
           Stub.empty_world "B" "eirut is sunny today.").
  reflexivity.
Defined.

(** * Further properties *)

(** ** The dispatchers on known and unknown tools *)

Lemma eqb_of_not_in (name : string) (tools : list (string * list string)) k :
  (forall required, ~ In (name, required) tools) ->
  In k (map fst tools) ->
  String.eqb name k = false.
Proof.
  intros Hnot Hin. apply String.eqb_neq. intros ->.
  apply in_map_iff in Hin as [[k' required] [Hk Hin]]. simpl in Hk. subst k'.
  apply (Hnot required Hin).
Qed.

(** X1: a name that is not among the tools of a dispatcher is turned down
    with an error result that quotes the name, and no server method is
    called. *)
Theorem unknown_tool_is_refused
  server dispatch tools refusal tool_name arguments w :
  In (dispatch, tools, refusal) (refusals server) ->
  (forall required, ~ In (tool_name, required) tools) ->
  dispatch tool_name arguments w
  = (Ok (VDict [("error", VStr (refusal ++ tool_name))]), w).
Proof.
  unfold refusals. cbn [In].
  intros [H|[H|[H|[H|[]]]]] Hnot; injection H as <- <- <-;
    unfold call_tool, _call_geo_tool, _call_routing_tool, _call_weather_tool,
      Eff.try_except;
    repeat match goal with
           | |- context [String.eqb tool_name ?k] =>
               rewrite (@eqb_of_not_in tool_name _ k Hnot) by (simpl; tauto)
           end;
    reflexivity.
Qed.

Lemma unknown_tool_is_refused_witness :
  call_tool (Stub.replies Stub.found) "weather_overlay"
    (VDict [("tile_x", VInt 10); ("tile_y", VInt 7); ("zoom", VInt 5)])
    Stub.empty_world
  = (Ok (VDict [("error", VStr "Unknown tool: weather_overlay")]),
     Stub.empty_world).
Proof.
  apply (@unknown_tool_is_refused (Stub.replies Stub.found)
           (call_tool (Stub.replies Stub.found)) _define_tools
           "Unknown tool: " "weather_overlay").
  - left. reflexivity.
  - intros required H. simpl in H.
    repeat (destruct H as [H|H]; [discriminate H|]). exact H.
Defined.

Ltac absent_contradicts H :=
  match goal with
  | E : Py.assoc ?k _ = None |- _ =>
      exfalso; apply (H k); [simpl; tauto | exact E]
  end.

Lemma call_tool_passes_on server tool_name required items w :
  In (tool_name, required) _define_tools ->
  (forall k, In k required -> Py.assoc k items <> None) ->
  exists c,
    call_tool server tool_name (VDict items) w
    = (Ok (passed_on (server (calls w) c)),
       World (history w) (queries w) (calls w ++ [c])).
Proof.
  intros Htool Hall.
  cbn [In _define_tools] in Htool;
    repeat (destruct Htool as [Htool|Htool];
            [injection Htool as <- <-|]); try contradiction;
    unfold call_tool;
    cbn [String.eqb Ascii.eqb Bool.eqb andb];
    by_cases_of_arguments items;
    try absent_contradicts Hall;
    cbn [Exc.bind];
    match goal with
    | |- context [server (calls w) ?c] =>
        exists c; destruct (server (calls w) c); reflexivity
    end.
Qed.

(** X2: when the arguments have every required argument of a known tool, the
    dispatcher calls exactly one server method, the one named after the
    tool, with the values of the required arguments as they are and in the
    order of the schema, whatever their types and whatever else the mapping
    holds; it returns what the method returns, unchanged. *)
Theorem known_tool_is_passed_on
  server dispatch tools tool_name required items w :
  In (dispatch, tools) (catalogue server) ->
  In (tool_name, required) tools ->
  (forall k, In k required -> Py.assoc k items <> None) ->
  exists c,
    method_name c = ("_" ++ tool_name)%string
    /\ map Some (call_arguments c) = map (fun k => Py.assoc k items) required
    /\ dispatch tool_name (VDict items) w
       = (Ok (passed_on (server (calls w) c)),
          World (history w) (queries w) (calls w ++ [c])).
Proof.
  unfold catalogue. cbn [In].
  intros [H|[H|[H|[H|[]]]]] Htool Hall; injection H as <- <-;
    cbn [In _define_tools geo_tools routing_tools weather_tools] in Htool;
    repeat (destruct Htool as [Htool|Htool];
            [injection Htool as <- <-|]); try contradiction;
    unfold call_tool, _call_geo_tool, _call_routing_tool, _call_weather_tool;
    cbn [String.eqb Ascii.eqb Bool.eqb andb];
    by_cases_of_arguments items;
    try absent_contradicts Hall;
    cbn [Exc.bind];
    match goal with
    | |- context [server (calls w) ?c] =>
        exists c; destruct (server (calls w) c);
        repeat split; cbn [map call_arguments]; congruence
    end.
Qed.

Lemma known_tool_is_passed_on_witness :
  exists c,
    method_name c = "_reverse_geocode"
    /\ map Some (call_arguments c)
       = [Some (VStr "north"); Some (VInt 0)]
    /\ call_tool (Stub.replies Stub.found) "reverse_geocode"
         (VDict [("lon", VInt 0); ("zoom", VInt 3); ("lat", VStr "north")])
         Stub.empty_world
       = (Ok Stub.found,
          World [] [] [c]).
Proof.
  apply (@known_tool_is_passed_on (Stub.replies Stub.found)
           (call_tool (Stub.replies Stub.found)) _define_tools
           "reverse_geocode" ["lat"; "lon"]
           [("lon", VInt 0); ("zoom", VInt 3); ("lat", VStr "north")]
           Stub.empty_world).
  - left. reflexivity.
  - right. left. reflexivity.
  - intros k [<-|[<-|[]]]; discriminate.
Defined.

(** X3: arguments that are not a mapping (a list, a string, a number or
    [null], all of which [json.loads] can return) are answered by every
    known tool with an error result, and no server method is called. *)
Theorem non_mapping_arguments_are_refused
  server dispatch tools tool_name required arguments w :
  In (dispatch, tools) (catalogue server) ->
  In (tool_name, required) tools ->
  (forall items, arguments <> VDict items) ->
  exists msg,
    dispatch tool_name arguments w = (Ok (VDict [("error", VStr msg)]), w).
Proof.
  unfold catalogue. cbn [In].
  intros [H|[H|[H|[H|[]]]]] Htool Hnot; injection H as <- <-;
    cbn [In _define_tools geo_tools routing_tools weather_tools] in Htool;
    repeat (destruct Htool as [Htool|Htool];
            [injection Htool as <- <-|]); try contradiction;
    unfold call_tool, _call_geo_tool, _call_routing_tool, _call_weather_tool;
    cbn [String.eqb Ascii.eqb Bool.eqb andb];
    unfold Eff.try_except, Eff.bind, arg, Eff.lift, invoke, Eff.ret;
    (destruct arguments; [| | | | | |exfalso; eapply Hnot; reflexivity]);
    eexists; reflexivity.
Qed.

Lemma non_mapping_arguments_are_refused_witness :
  exists msg,
    call_tool (Stub.replies Stub.found) "geocode" (VList [VStr "AUB"])
      Stub.empty_world
    = (Ok (VDict [("error", VStr msg)]), Stub.empty_world).
Proof.
  apply (@non_mapping_arguments_are_refused (Stub.replies Stub.found)
           (call_tool (Stub.replies Stub.found)) _define_tools
           "geocode" ["address"]).
  - left. reflexivity.
  - left. reflexivity.
  - intros items H. discriminate H.
Defined.

(** X4: on the tools of the geo and routing servers and on [get_weather] and
    [get_temperature] the dispatcher of the interactive agent does what the
    wrappers of the assistant agent do; [weather_overlay] is the one tool
    among theirs that it does not know. *)
Theorem agents_dispatch_alike server :
  Forall (fun tool_name =>
            forall arguments w,
              call_tool server tool_name arguments w
              = _call_geo_tool server tool_name arguments w)
         (map fst geo_tools)
  /\ Forall (fun tool_name =>
               forall arguments w,
                 call_tool server tool_name arguments w
                 = _call_routing_tool server tool_name arguments w)
            (map fst routing_tools)
  /\ Forall (fun tool_name =>
               forall arguments w,
                 call_tool server tool_name arguments w
                 = if tool_name =? "weather_overlay"
                   then (Ok (VDict [("error",
                                     VStr "Unknown tool: weather_overlay")]), w)
                   else _call_weather_tool server tool_name arguments w)
            (map fst weather_tools).
Proof.
  cbn [map fst geo_tools routing_tools weather_tools].
  repeat split; repeat constructor; intros; reflexivity.
Qed.

(** ** The router and the wrappers together *)

Lemma _extract_coords_floats query :
  exists lat lon,
    Router._extract_coords query
    = Ok (VDict [("lat", VFloat lat); ("lon", VFloat lon)]).
Proof.
  unfold Router._extract_coords.
  destruct (Re.search Router.coord_pattern query) as [m|] eqn:E.
  - apply search_fits, coord_groups_are_literals in E as [H1 H2].
    rewrite (float_of_literal _ H1), (float_of_literal _ H2). simpl. eauto.
  - unfold Router.beirut_lat, Router.beirut_lon. eauto.
Qed.

Lemma _extract_tile_info_ints query :
  exists x y z,
    Router._extract_tile_info query
    = Ok (VDict [("tile_x", VInt x); ("tile_y", VInt y); ("zoom", VInt z)]).
Proof.
  unfold Router._extract_tile_info.
  destruct (Re.search Router.tile_pattern _) as [m|] eqn:E; [|eauto].
  apply search_fits, tile_groups_are_decimals in E as (H1 & H2 & H3).
  rewrite (int_of_decimals _ H1), (int_of_decimals _ H2), (int_of_decimals _ H3).
  simpl. eauto.
Qed.

Lemma _route_query_routed query :
  exists d, Router._route_query query = Ok d /\ routed d.
Proof.
  unfold Router._route_query.
  destruct (PyStr.any_in Router.geo_words _).
  { destruct (_ || _).
    - destruct (_extract_coords_floats query) as (lat & lon & ->).
      eexists. split; [reflexivity|]. constructor.
    - eexists. split; [reflexivity|]. constructor. }
  destruct (PyStr.any_in Router.poi_words _).
  { unfold Router._extract_location_for_poi.
    destruct (_extract_location_returns query) as [location ->].
    destruct (_extract_coords_floats query) as (lat & lon & ->).
    eexists. split; [reflexivity|]. constructor. }
  destruct (PyStr.any_in Router.routing_words _).
  { destruct (_ || _).
    { unfold Router._extract_two_locations.
      destruct (Re.search Router.from_to_pattern _);
        eexists; (split; [reflexivity|]); constructor. }
    destruct (PyStr.contains "distance" _).
    - pose proof (coords_found_are_literals query) as Hlit.
      destruct (Router.coords_found query) as [|c0 [|c1 rest]];
        cbn [List.length Nat.leb];
        try (eexists; (split; [reflexivity|]); constructor).
      rewrite (distance_of_two_pairs Hlit).
      eexists. split; [reflexivity|]. constructor.
    - eexists. split; [reflexivity|]. constructor. }
  destruct (PyStr.any_in Router.weather_words _).
  2: { eexists. split; [reflexivity|]. constructor. }
  destruct (_ || _).
  { destruct (_extract_tile_info_ints query) as (x & y & z & ->).
    eexists. split; [reflexivity|]. constructor. }
  destruct (_ && _).
  { destruct (_extract_coords_floats query) as (lat & lon & ->).
    eexists. split; [reflexivity|]. constructor. }
  destruct (_extract_location_returns query) as [location ->].
  eexists. split; [reflexivity|]. constructor.
Qed.



(** ** The chat loop on every run *)

Section ChatRuns.

Variable server : list call -> call -> exc pyval.
Variable engine : list message -> exc completion.
Variable json_loads : string -> exc pyval.
Variable json_dumps : pyval -> string.

Lemma call_tool_calls_at_most_once tool_name arguments w :
  exists r cs,
    call_tool server tool_name arguments w
    = (Ok r, World (history w) (queries w) (calls w ++ cs))
    /\ List.length cs <= 1.
Proof.
  destruct w as [h qs cs0].
  unfold call_tool, Eff.try_except, Eff.bind, arg, Eff.lift, invoke, Eff.ret.
  by_cases_of_dispatch tool_name arguments;
    cbn [history queries calls];
    try match goal with
        | |- context [match ?srv ?cs ?c with Ok _ => _ | Raise _ => _ end] =>
            destruct (srv cs c); eexists; exists [c];
            (split; [reflexivity|]); simpl; lia
        end;
    eexists; exists []; rewrite app_nil_r; (split; [reflexivity|]); simpl; lia.
Qed.

Lemma run_tool_calls_on_every_run requests :
  forall w,
    exists outcome msgs cs,
      run_tool_calls server json_loads json_dumps requests w
      = (outcome, World (history w ++ msgs) (queries w) (calls w ++ cs))
      /\ forallb is_tool_message msgs = true
      /\ List.length cs <= List.length msgs.
Proof.
  induction requests as [|tc rest IH]; intros w.
  - exists (Ok tt), [], []. rewrite !app_nil_r. destruct w. simpl. auto.
  - cbn [run_tool_calls]. unfold Eff.bind at 1, Eff.lift.
    destruct (json_loads (tc_arguments tc)) as [v|e].
    + unfold Eff.bind at 1.
      destruct (call_tool_calls_at_most_once (tc_name tc) v w)
        as (r & cs & -> & Hcs).
      unfold Eff.bind at 1, Eff.append. cbn [history queries calls].
      destruct (IH (World (history w ++ [Tool (tc_id tc) (tc_name tc) (json_dumps r)])
                      (queries w) (calls w ++ cs)))
        as (outcome & msgs & cs' & -> & Htool & Hlen).
      cbn [history queries calls].
      exists outcome, (Tool (tc_id tc) (tc_name tc) (json_dumps r) :: msgs),
        (cs ++ cs').
      rewrite <- !app_assoc. split; [reflexivity|]. split; [exact Htool|].
      rewrite length_app. simpl. lia.
    + exists (Raise e), [], []. rewrite !app_nil_r. destruct w. simpl. auto.
Qed.

Lemma filter_tool_app (a b : list message) :
  List.length (filter is_tool_message (a ++ b))
  = List.length (filter is_tool_message a)
    + List.length (filter is_tool_message b).
Proof. rewrite filter_app, length_app. reflexivity. Qed.

Lemma filter_all_tool msgs :
  forallb is_tool_message msgs = true ->
  List.length (filter is_tool_message msgs) = List.length msgs.
Proof.
  induction msgs as [|m msgs IH]; simpl; auto.
  intros H. apply andb_true_iff in H as [Hm Hrest]. rewrite Hm. simpl. auto.
Qed.

Lemma chat_loop_on_every_run n :
  forall w,
    exists outcome added qs cs,
      chat_loop server engine json_loads json_dumps n w
      = (outcome,
         World (history w ++ added) (queries w ++ qs) (calls w ++ cs))
      /\ List.length qs <= n
      /\ List.length cs <= List.length (filter is_tool_message added).
Proof.
  induction n as [|n IH]; intros w.
  - exists (Ok retry_message), [], [], []. rewrite !app_nil_r. destruct w.
    simpl. auto.
  - cbn [chat_loop]. unfold Eff.bind at 1, create.
    destruct (engine (history w)) as [m|e] eqn:E.
    + unfold Eff.bind at 1, Eff.append. cbn [history queries calls].
      destruct (tool_calls m) as [|tc tcs] eqn:Etc.
      * exists (Ok (final_text m)), [Assistant (content m) []], [history w], [].
        rewrite app_nil_r. split.
        { unfold final_text. destruct (content m) as [[|c text]|]; reflexivity. }
        simpl. lia.
      * unfold Eff.bind at 1.
        destruct (run_tool_calls_on_every_run (tc :: tcs)
                    (World (history w ++ [Assistant (content m) (tc :: tcs)])
                       (queries w ++ [history w]) (calls w)))
          as (outcome & msgs & cs & -> & Htool & Hlen).
        cbn [history queries calls].
        destruct outcome as [[]|e].
        -- destruct (IH (World ((history w ++ [Assistant (content m) (tc :: tcs)]) ++ msgs)
                           (queries w ++ [history w]) (calls w ++ cs)))
             as (outcome & added & qs & cs' & -> & Hq & Hc).
           cbn [history queries calls].
           exists outcome, (Assistant (content m) (tc :: tcs) :: msgs ++ added),
             (history w :: qs), (cs ++ cs').
           split.
           { f_equal. f_equal; rewrite <- ?app_assoc; reflexivity. }
           split; [simpl; lia|].
           cbn [filter is_tool_message]. rewrite filter_tool_app.
           rewrite (filter_all_tool _ Htool). rewrite length_app. lia.
        -- exists (Raise e), (Assistant (content m) (tc :: tcs) :: msgs),
             [history w], cs.
           split.
           { f_equal. f_equal; rewrite <- ?app_assoc; reflexivity. }
           split; [simpl; lia|].
           cbn [filter is_tool_message].
           rewrite (filter_all_tool _ Htool). exact Hlen.
    + exists (Raise e), [], [history w], []. rewrite !app_nil_r.
      split; [reflexivity|]. simpl. lia.
Qed.

End ChatRuns.

(** X7: on every run, also one that ends with an exception, [chat] only
    appends to the history it is given, first the user message, and sends
    the model at most 5 queries. *)
Theorem chat_only_appends
  server engine json_loads json_dumps user_message w :
  exists added qs,
    history (snd (chat server engine json_loads json_dumps user_message w))
    = history w ++ User user_message :: added
    /\ queries (snd (chat server engine json_loads json_dumps user_message w))
       = queries w ++ qs
    /\ List.length qs <= 5.
Proof.
  unfold chat, Eff.bind, Eff.append.
  destruct (chat_loop_on_every_run server engine json_loads json_dumps
              max_iterations
              (World (history w ++ [User user_message]) (queries w) (calls w)))
    as (outcome & added & qs & cs & -> & Hq & Hc).
  cbn [history queries calls snd]. exists added, qs.
  rewrite <- app_assoc. auto.
Qed.

(** X8: on every run of [chat] the server methods called are at most as
    many as the tool-result messages appended: each request is worth at
    most one call, and no call is made without its result being recorded. *)
Theorem calls_are_recorded
  server engine json_loads json_dumps user_message w :
  exists added cs,
    history (snd (chat server engine json_loads json_dumps user_message w))
    = history w ++ added
    /\ calls (snd (chat server engine json_loads json_dumps user_message w))
       = calls w ++ cs
    /\ List.length cs <= List.length (filter is_tool_message added).
Proof.
  unfold chat, Eff.bind, Eff.append.
  destruct (chat_loop_on_every_run server engine json_loads json_dumps
              max_iterations
              (World (history w ++ [User user_message]) (queries w) (calls w)))
    as (outcome & added & qs & cs & -> & Hq & Hc).
  cbn [history queries calls snd]. exists (User user_message :: added), cs.
  rewrite <- app_assoc. auto.
Qed.

Section ChatOutcome.

Variable server : list call -> call -> exc pyval.
Variable engine : list message -> exc completion.
Variable json_loads : string -> exc pyval.
Variable json_dumps : pyval -> string.
Hypothesis parse : arguments_parse json_loads engine.

Lemma chat_loop_ends n :
  forall w,
    exists outcome w' qs,
      chat_loop server engine json_loads json_dumps n w = (outcome, w')
      /\ queries w' = queries w ++ qs
      /\ ends engine n qs outcome.
Proof.
  induction n as [|n IH]; intros w.
  - exists (Ok retry_message), w, []. rewrite app_nil_r.
    repeat split. left. repeat split. constructor.
  - cbn [chat_loop]. unfold Eff.bind at 1, create.
    destruct (engine (history w)) as [m|e] eqn:E.
    + unfold Eff.bind at 1, Eff.append. cbn [history queries calls].
      destruct (tool_calls m) as [|tc tcs] eqn:Etc.
      * exists (Ok (final_text m)),
          (World (history w ++ [Assistant (content m) []])
             (queries w ++ [history w]) (calls w)),
          [history w]. split.
        { unfold final_text. destruct (content m) as [[|c text]|]; reflexivity. }
        cbn [queries]. split; [reflexivity|].
        right. exists [], (history w). repeat split; [constructor|].
        left. exists m. auto.
      * unfold Eff.bind at 1.
        pose proof (parse E) as Hp. rewrite Etc in Hp.
        destruct (@run_tool_calls_effect server json_loads json_dumps _ Hp
                    (World (history w ++ [Assistant (content m) (tc :: tcs)])
                       (queries w ++ [history w]) (calls w)))
          as (msgs & cs & -> & Hans).
        cbn [history queries calls].
        destruct (IH (World ((history w ++ [Assistant (content m) (tc :: tcs)]) ++ msgs)
                        (queries w ++ [history w]) (calls w ++ cs)))
          as (outcome & w' & qs & -> & Hq & Hend).
        cbn [queries] in Hq.
        assert (Hasks : asks engine (history w)).
        { exists m. split; [exact E|]. rewrite Etc. discriminate. }
        exists outcome, w', (history w :: qs). split; [reflexivity|]. split.
        { rewrite Hq, <- app_assoc. reflexivity. }
        destruct Hend as [(Hlen & Hall & Hout)|(earlier & h & Hqs & Hall & Hlast)].
        -- left. repeat split; [simpl; lia|constructor; assumption|exact Hout].
        -- right. exists (history w :: earlier), h. subst qs.
           repeat split; [constructor; assumption|exact Hlast].
    + exists (Raise e). eexists. exists [history w]. split; [reflexivity|].
      cbn [queries]. split; [reflexivity|].
      right. exists [], (history w). repeat split; [constructor|].
      right. exists e. auto.
Qed.

End ChatOutcome.

(** X9: when the argument text of every request is valid JSON, a run of
    [chat] ends in one of three ways: with the retry message, after exactly
    5 queries that all came back with requests; or at the first query that
    came back without requests, with its text (the fixed no-response message
    when it has none); or at the first query on which the model itself
    raised, with that exception.  A failure of a server never ends it. *)
Theorem chat_ends_in_one_of_three_ways
  server engine json_loads json_dumps user_message w :
  arguments_parse json_loads engine ->
  exists outcome w' qs,
    chat server engine json_loads json_dumps user_message w = (outcome, w')
    /\ queries w' = queries w ++ qs
    /\ ends engine 5 qs outcome.
Proof.
  intros Hparse. unfold chat, Eff.bind, Eff.append.
  destruct (chat_loop_ends server json_dumps Hparse max_iterations
              (World (history w ++ [User user_message]) (queries w) (calls w)))
    as (outcome & w' & qs & -> & Hq & Hend).
  exists outcome, w', qs. auto.
Qed.

Lemma chat_ends_in_one_of_three_ways_witness :
  exists outcome w' qs,
    chat (Stub.fails "Service unavailable")
         (Stub.keeps_asking [Stub.geocode_aub])
         Json.loads Json.dumps "Where is AUB?" Stub.empty_world
    = (outcome, w')
    /\ queries w' = [] ++ qs
    /\ ends (Stub.keeps_asking [Stub.geocode_aub]) 5 qs outcome.
Proof.
  apply (@chat_ends_in_one_of_three_ways (Stub.fails "Service unavailable")
           (Stub.keeps_asking [Stub.geocode_aub])
           Json.loads Json.dumps "Where is AUB?" Stub.empty_world).
  apply keeps_asking_parses.
  repeat constructor; eexists; vm_compute; reflexivity.
Defined.

(** X10: when the first completion has no requests and no text ([None] or
    the empty text), [chat] returns the fixed no-response message after
    that one query, with the assistant message appended. *)
Theorem empty_answer_gets_fixed_message
  server engine json_loads json_dumps user_message w m :
  engine (history w ++ [User user_message]) = Ok m ->
  tool_calls m = [] ->
  content m = None \/ content m = Some EmptyString ->
  chat server engine json_loads json_dumps user_message w
  = (Ok no_response_message,
     World (history w ++ [User user_message; Assistant (content m) []])
           (queries w ++ [history w ++ [User user_message]])
           (calls w)).
Proof.
  intros E Etc Hcontent. unfold chat, Eff.bind at 1, Eff.append.
  cbn [max_iterations chat_loop]. unfold Eff.bind at 1, create.
  cbn [history queries calls]. rewrite E.
  unfold Eff.bind, Eff.append, Eff.ret. cbn [history queries calls].
  rewrite Etc, <- app_assoc.
  destruct Hcontent as [-> | ->]; reflexivity.
Qed.

Lemma empty_answer_gets_fixed_message_witness :
  chat (Stub.replies Stub.found) (fun _ => Ok (Completion None []))
       Json.loads Json.dumps "Hello" Stub.empty_world
  = (Ok no_response_message,
     World [User "Hello"; Assistant None []] [[User "Hello"]] []).
Proof.
  apply (@empty_answer_gets_fixed_message (Stub.replies Stub.found)
           (fun _ => Ok (Completion None [])) Json.loads Json.dumps
           "Hello" Stub.empty_world (Completion None [])).
  - reflexivity.
  - reflexivity.
  - left. reflexivity.
Defined.

Lemma chat_loop_first_query server engine json_loads json_dumps n w :
  exists rest,
    queries (snd (chat_loop server engine json_loads json_dumps (S n) w))
    = queries w ++ history w :: rest.
Proof.
  cbn [chat_loop]. unfold Eff.bind at 1, create.
  destruct (engine (history w)) as [m|e]; [|exists []; reflexivity].
  unfold Eff.bind at 1, Eff.append. cbn [history queries calls].
  destruct (tool_calls m) as [|tc tcs].
  { exists []. destruct (content m) as [[|c text]|]; reflexivity. }
  unfold Eff.bind at 1.
  destruct (run_tool_calls_on_every_run server json_loads json_dumps (tc :: tcs)
              (World (history w ++ [Assistant (content m) (tc :: tcs)])
                 (queries w ++ [history w]) (calls w)))
    as (outcome & msgs & cs & -> & _ & _).
  destruct outcome as [[]|e]; cbv beta iota; cbn [history queries calls];
    [|exists []; reflexivity].
  destruct (chat_loop_on_every_run server engine json_loads json_dumps n
              (World ((history w ++ [Assistant (content m) (tc :: tcs)]) ++ msgs)
                 (queries w ++ [history w]) (calls w ++ cs)))
    as (outcome & added & qs & cs' & -> & _ & _).
  cbn [snd queries]. exists qs. rewrite <- app_assoc. reflexivity.
Qed.

Lemma failure_is_reported_in_loop
  server engine json_loads json_dumps n w m tc required items msg :
  engine (history w) = Ok m ->
  tool_calls m = [tc] ->
  json_loads (tc_arguments tc) = Ok (VDict items) ->
  In (tc_name tc, required) _define_tools ->
  (forall k, In k required -> Py.assoc k items <> None) ->
  (forall c, server (calls w) c = Raise msg) ->
  exists rest,
    queries (snd (chat_loop server engine json_loads json_dumps (S (S n)) w))
    = queries w
      ++ history w
      :: (history w
          ++ [Assistant (content m) [tc];
              Tool (tc_id tc) (tc_name tc)
                (json_dumps (VDict [("error", VStr msg)]))])
      :: rest.
Proof.
  intros E Etc Hloads Htool Hall Hfails.
  remember (S n) as n1 eqn:Hn1. cbn [chat_loop].
  unfold Eff.bind at 1, create. rewrite E.
  unfold Eff.bind at 1, Eff.append. cbn [history queries calls].
  rewrite Etc. unfold Eff.bind at 1. cbn [run_tool_calls].
  unfold Eff.bind at 1, Eff.lift. rewrite Hloads.
  unfold Eff.bind at 1.
  destruct (@call_tool_passes_on server (tc_name tc) required items
              (World (history w ++ [Assistant (content m) [tc]])
                 (queries w ++ [history w]) (calls w))
              Htool Hall)
    as (c & ->).
  cbn [history queries calls]. rewrite Hfails. cbn [passed_on].
  unfold Eff.bind at 1, Eff.append. cbn [history queries calls].
  unfold Eff.ret. subst n1.
  match goal with
  | |- context [chat_loop _ _ _ _ (S n) ?w1] =>
      destruct (chat_loop_first_query server engine json_loads json_dumps n w1)
        as (rest & Hrest)
  end.
  exists rest. rewrite Hrest. cbn [history queries].
  rewrite <- !app_assoc. reflexivity.
Qed.

(** X11: when the model's first completion asks for one known tool with all
    its required arguments and the server method raises, the exception does
    not end the loop: its message is appended as the tool result, as
    [json.dumps] of the error mapping, and the model is queried again with
    that history. *)
Theorem server_failure_is_reported
  server engine json_loads json_dumps user_message w
  m tc required items msg :
  engine (history w ++ [User user_message]) = Ok m ->
  tool_calls m = [tc] ->
  json_loads (tc_arguments tc) = Ok (VDict items) ->
  In (tc_name tc, required) _define_tools ->
  (forall k, In k required -> Py.assoc k items <> None) ->
  (forall c, server (calls w) c = Raise msg) ->
  exists rest,
    queries (snd (chat server engine json_loads json_dumps user_message w))
    = queries w
      ++ (history w ++ [User user_message])
      :: (history w
          ++ [User user_message; Assistant (content m) [tc];
              Tool (tc_id tc) (tc_name tc)
                (json_dumps (VDict [("error", VStr msg)]))])
      :: rest.
Proof.
  intros E Etc Hloads Htool Hall Hfails.
  unfold chat, Eff.bind, Eff.append.
  change max_iterations with (S (S 3)).
  destruct (@failure_is_reported_in_loop server engine json_loads json_dumps 3
              (World (history w ++ [User user_message]) (queries w) (calls w))
              m tc required items msg E Etc Hloads Htool Hall Hfails)
    as (rest & Hrest).
  exists rest. rewrite Hrest. cbn [history queries].
  rewrite <- !app_assoc. reflexivity.
Qed.

Lemma server_failure_is_reported_witness :
  exists rest,
    queries (snd (chat (Stub.fails "Service unavailable")
                    (Stub.keeps_asking [Stub.geocode_aub])
                    Json.loads Json.dumps "Where is AUB?" Stub.empty_world))
    = []
      ++ ([] ++ [User "Where is AUB?"])
      :: ([] ++ [User "Where is AUB?"; Assistant None [Stub.geocode_aub];
                 Tool "call_1" "geocode"
                   (Json.dumps (VDict [("error", VStr "Service unavailable")]))])
      :: rest.
Proof.
  apply (@server_failure_is_reported (Stub.fails "Service unavailable")
           (Stub.keeps_asking [Stub.geocode_aub]) Json.loads Json.dumps
           "Where is AUB?" Stub.empty_world
           (Completion None [Stub.geocode_aub]) Stub.geocode_aub
           ["address"] [("address", VStr "AUB")] "Service unavailable").
  - reflexivity.
  - reflexivity.
  - vm_compute. reflexivity.
  - left. reflexivity.
  - intros k [<-|[]]. discriminate.
  - reflexivity.
Defined.

(** ** The session of [run] *)

Example system_prompt_example :
  PyStr.startswith system_prompt "You are a helpful assistant" = true
  /\ String.length system_prompt = 1193.
Proof. vm_compute. auto. Qed.

Section SessionFacts.

Variable server : list call -> call -> exc pyval.
Variable engine : list message -> exc completion.
Variable json_loads : string -> exc pyval.
Variable json_dumps : pyval -> string.

Lemma tool_messages_are_not_typed msgs :
  forallb is_tool_message msgs = true -> filter is_typed_message msgs = [].
Proof.
  induction msgs as [|m msgs IH]; simpl; auto.
  intros H. apply andb_true_iff in H as [Hm Hrest].
  destruct m; try discriminate. simpl. auto.
Qed.

(** The loop of [chat] appends assistant and tool messages only. *)
Lemma chat_loop_appends_replies n :
  forall w,
    exists added,
      history (snd (chat_loop server engine json_loads json_dumps n w))
      = history w ++ added
      /\ filter is_typed_message added = [].
Proof.
  induction n as [|n IH]; intros w.
  - exists []. rewrite app_nil_r. auto.
  - cbn [chat_loop]. unfold Eff.bind at 1, create.
    destruct (engine (history w)) as [m|e].
    2: { exists []. rewrite app_nil_r. auto. }
    unfold Eff.bind at 1, Eff.append. cbn [history queries calls].
    destruct (tool_calls m) as [|tc tcs].
    { exists [Assistant (content m) []].
      destruct (content m) as [[|c text]|]; auto. }
    unfold Eff.bind at 1.
    destruct (run_tool_calls_on_every_run server json_loads json_dumps (tc :: tcs)
                (World (history w ++ [Assistant (content m) (tc :: tcs)])
                   (queries w ++ [history w]) (calls w)))
      as (outcome & msgs & cs & -> & Htool & _).
    cbn [history queries calls].
    destruct outcome as [[]|e]; cbv beta iota.
    + destruct (IH (World ((history w ++ [Assistant (content m) (tc :: tcs)]) ++ msgs)
                      (queries w ++ [history w]) (calls w ++ cs)))
        as (added & -> & Hadded).
      cbn [history].
      exists (Assistant (content m) (tc :: tcs) :: msgs ++ added).
      split; [rewrite <- !app_assoc; reflexivity|].
      cbn [filter is_typed_message]. rewrite filter_app.
      rewrite (tool_messages_are_not_typed _ Htool), Hadded. reflexivity.
    + exists (Assistant (content m) (tc :: tcs) :: msgs).
      cbn [snd history]. split; [rewrite <- !app_assoc; reflexivity|].
      cbn [filter is_typed_message].
      apply tool_messages_are_not_typed, Htool.
Qed.

Lemma run_loop_keeps_the_inputs events :
  forall w,
    exists responses e w',
      run_loop server engine json_loads json_dumps events w
      = (Ok (responses, e), w')
      /\ List.length responses = List.length (processed events)
      /\ filter is_typed_message (history w')
         = filter is_typed_message (history w) ++ map User (processed events).
Proof.
  induction events as [|[line|] rest IH]; intros w.
  - exists [], AtPrompt, w. simpl. rewrite app_nil_r. auto.
  - cbn [run_loop processed].
    destruct (String.length (PyStr.strip line) =? 0)%nat; [apply IH|].
    destruct (is_quit (PyStr.strip line)).
    { exists [], Quit, w. simpl. rewrite app_nil_r. auto. }
    unfold Eff.bind at 1, shown, chat.
    unfold Eff.bind at 1, Eff.append.
    destruct (chat_loop_appends_replies max_iterations
                (World (history w ++ [User (PyStr.strip line)])
                   (queries w) (calls w)))
      as (added & Hh & Hadded).
    destruct (chat_loop server engine json_loads json_dumps max_iterations _)
      as [outcome w1].
    cbn [snd history] in Hh.
    destruct (IH w1) as (responses & e & w' & Hrun & Hlen & Hhist).
    unfold Eff.bind at 1. rewrite Hrun. cbn [fst snd Eff.ret].
    exists (outcome :: responses), e, w'. split; [reflexivity|].
    split; [simpl; congruence|].
    rewrite Hhist, Hh. rewrite !filter_app, Hadded. simpl.
    rewrite app_nil_r, <- app_assoc. reflexivity.
  - exists [], Interrupted, w. simpl. rewrite app_nil_r. auto.
Qed.

Lemma run_loop_stops_reading event :
  ends_session event = true ->
  forall before after w,
    run_loop server engine json_loads json_dumps (before ++ event :: after) w
    = run_loop server engine json_loads json_dumps (before ++ [event]) w.
Proof.
  intros Hends before after.
  induction before as [|[line|] before IH]; intros w; cbn [app run_loop].
  - destruct event as [line|]; [|reflexivity].
    cbn [ends_session] in Hends. cbn [run_loop].
    apply andb_true_iff in Hends as [Hblank Hquit].
    apply negb_true_iff in Hblank. rewrite Hblank, Hquit. reflexivity.
  - destruct (String.length (PyStr.strip line) =? 0)%nat; [apply IH|].
    destruct (is_quit (PyStr.strip line)); [reflexivity|].
    unfold Eff.bind at 1 3.
    destruct (shown _ w) as [[response|e] w1]; [|reflexivity].
    unfold Eff.bind. rewrite IH. reflexivity.
  - reflexivity.
Qed.

End SessionFacts.

(** X12: a session never reads past a quit word ("quit", "exit" or "q", in
    any letter case and with blanks around it) or an interrupt: whatever is
    typed after it changes nothing. *)
Theorem session_ends_at_quit
  server engine json_loads json_dumps event before after w :
  ends_session event = true ->
  run server engine json_loads json_dumps (before ++ event :: after) w
  = run server engine json_loads json_dumps (before ++ [event]) w.
Proof.
  intros Hends. unfold run. apply run_loop_stops_reading, Hends.
Qed.

Lemma session_ends_at_quit_witness :
  run (Stub.replies Stub.found) (Stub.answers_at_once "Sunny.")
      Json.loads Json.dumps
      ([Typed "weather in Beirut?"] ++ Typed "  EXIT " :: [Typed "and Tripoli?"])
      Stub.empty_world
  = run (Stub.replies Stub.found) (Stub.answers_at_once "Sunny.")
      Json.loads Json.dumps
      ([Typed "weather in Beirut?"] ++ [Typed "  EXIT "])
      Stub.empty_world.
Proof.
  apply (@session_ends_at_quit (Stub.replies Stub.found)
           (Stub.answers_at_once "Sunny.") Json.loads Json.dumps
           (Typed "  EXIT ")).
  reflexivity.
Defined.

(** X13: whatever the model and the servers do, also when [chat] raises, a
    session shows one response or error for each input that is neither
    blank nor a quit word, up to the first quit word or interrupt, and the
    typed part of its history is the system message followed by exactly
    those inputs, in order and without the blanks around them. *)
Theorem session_keeps_the_inputs
  server engine json_loads json_dumps events w :
  exists responses e w',
    run server engine json_loads json_dumps events w = (Ok (responses, e), w')
    /\ List.length responses = List.length (processed events)
    /\ filter is_typed_message (history w')
       = System system_prompt :: map User (processed events).
Proof.
  unfold run.
  destruct (run_loop_keeps_the_inputs server engine json_loads json_dumps events
              (World [System system_prompt] (queries w) (calls w)))
    as (responses & e & w' & Hrun & Hlen & Hhist).
  exists responses, e, w'. auto.
Qed.

(** ** The fastest route of the routing server *)

Example get_coords_examples :
  let route := fun a b c d => VDict [("success", VBool true)] in
  let nowhere := fun s : string => @Raise (pyval * pyval) ("Could not geocode: " ++ s) in
  RoutingServer.get_coords nowhere "33.9, 35.5" = Ok (VFloat "33.9", VFloat "35.5")
  /\ RoutingServer.get_coords nowhere "1,2,3" = Ok (VFloat "1", VFloat "2")
  /\ RoutingServer.get_coords nowhere "1-2,3"
     = Raise "could not convert string to float: '1-2'"
  /\ RoutingServer.get_coords nowhere "Beirut, Lebanon"
     = Raise "Could not geocode: Beirut, Lebanon"
  /\ RoutingServer._fastest_route nowhere route "33.9,35.5" "34.4, 35.8"
     = VDict [("success", VBool true); ("start_location", VStr "33.9,35.5");
              ("end_location", VStr "34.4, 35.8"); ("route_type", VStr "fastest")].
Proof. vm_compute. repeat split. Qed.

Lemma all_char_app p (a b : string) :
  PyStr.all_char p (a ++ b) = PyStr.all_char p a && PyStr.all_char p b.
Proof. induction a as [|c a IH]; simpl; auto. rewrite IH, andb_assoc. auto. Qed.

Lemma all_char_impl (p q : ascii -> bool) s :
  (forall c, p c = true -> q c = true) ->
  PyStr.all_char p s = true -> PyStr.all_char q s = true.
Proof.
  intros Hpq. induction s as [|c s IH]; simpl; auto.
  intros H. apply andb_true_iff in H as [Hc Hs].
  rewrite (Hpq _ Hc), (IH Hs). reflexivity.
Qed.

Lemma any_char_app p (a b : string) :
  PyStr.any_char p (a ++ b) = PyStr.any_char p a || PyStr.any_char p b.
Proof. induction a as [|c a IH]; simpl; auto. rewrite IH, orb_assoc. auto. Qed.

Lemma plain_char_facts c :
  plain_char c = true ->
  PyStr.isspace c = false /\ Ascii.eqb c ","%char = false
  /\ Ascii.eqb c " "%char = false.
Proof.
  destruct c as [[] [] [] [] [] [] [] []]; vm_compute; intros H;
    repeat split; reflexivity || discriminate H.
Qed.

Lemma decimal_char_facts c :
  PyStr.isdecimal c = true ->
  PyStr.isdigit c = true /\ Ascii.eqb c "."%char = false
  /\ Ascii.eqb c "-"%char = false /\ Ascii.eqb c ","%char = false
  /\ Ascii.eqb c " "%char = false.
Proof.
  destruct c as [[] [] [] [] [] [] [] []]; vm_compute; intros H;
    repeat split; reflexivity || discriminate H.
Qed.

Lemma cleaned_cons c s :
  cleaned (String c s)
  = if Ascii.eqb c "."%char || Ascii.eqb c "-"%char || Ascii.eqb c ","%char
       || Ascii.eqb c " "%char
    then cleaned s else String c (cleaned s).
Proof.
  unfold cleaned. cbn [RoutingServer.remove].
  destruct (Ascii.eqb c "."%char); [reflexivity|]. cbn [RoutingServer.remove].
  destruct (Ascii.eqb c "-"%char); [reflexivity|]. cbn [RoutingServer.remove].
  destruct (Ascii.eqb c ","%char); [reflexivity|]. cbn [RoutingServer.remove].
  destruct (Ascii.eqb c " "%char); reflexivity.
Qed.

Lemma cleaned_is_digits s :
  PyStr.all_char (fun c => plain_char c || Ascii.eqb c ","%char
                           || Ascii.eqb c " "%char) s = true ->
  PyStr.all_char PyStr.isdigit (cleaned s) = true.
Proof.
  induction s as [|c s IH]; [reflexivity|].
  cbn [PyStr.all_char]. intros H. apply andb_true_iff in H as [Hc Hs].
  rewrite cleaned_cons.
  destruct (Ascii.eqb c "."%char) eqn:E1; [auto|].
  destruct (Ascii.eqb c "-"%char) eqn:E2; [auto|].
  destruct (Ascii.eqb c ","%char) eqn:E3; [auto|].
  destruct (Ascii.eqb c " "%char) eqn:E4; [auto|].
  cbn [orb PyStr.all_char]. rewrite (IH Hs).
  unfold plain_char in Hc. rewrite E1, E2, !orb_false_r in Hc.
  destruct (decimal_char_facts _ Hc) as [-> _]. reflexivity.
Qed.

Lemma cleaned_keeps_a_digit s :
  PyStr.any_char PyStr.isdecimal s = true ->
  (String.length (cleaned s) =? 0)%nat = false.
Proof.
  induction s as [|c s IH]; [discriminate|].
  cbn [PyStr.any_char]. intros H. rewrite cleaned_cons.
  destruct (PyStr.isdecimal c) eqn:Hc.
  - destruct (decimal_char_facts _ Hc) as (_ & -> & -> & -> & ->). reflexivity.
  - cbn [orb] in H.
    destruct (Ascii.eqb c "."%char || Ascii.eqb c "-"%char
              || Ascii.eqb c ","%char || Ascii.eqb c " "%char);
      [auto|reflexivity].
Qed.

Lemma skip_decimals_any p s :
  PyStr.any_char p (Py.skip_decimals s) = true -> PyStr.any_char p s = true.
Proof.
  induction s as [|c s IH]; simpl; auto.
  destruct (PyStr.isdecimal c); simpl; auto.
  intros H. rewrite (IH H). apply orb_true_r.
Qed.

Lemma skip_decimals_shorter s :
  (String.length (Py.skip_decimals s) =? String.length s)%nat = false ->
  PyStr.any_char PyStr.isdecimal s = true.
Proof.
  destruct s as [|c s]; simpl; [discriminate|].
  destruct (PyStr.isdecimal c); [reflexivity|].
  rewrite Nat.eqb_refl. discriminate.
Qed.

Lemma all_decimals_any s :
  Py.skip_decimals s = EmptyString ->
  (String.length s =? 0)%nat = false ->
  PyStr.any_char PyStr.isdecimal s = true.
Proof.
  destruct s as [|c s]; simpl; [discriminate|].
  destruct (PyStr.isdecimal c); [reflexivity|discriminate].
Qed.

Lemma unsigned_any p s :
  PyStr.any_char p (Py.unsigned s) = true -> PyStr.any_char p s = true.
Proof.
  destruct s as [|c s]; simpl; auto.
  destruct (_ || _); simpl; auto. intros ->. apply orb_true_r.
Qed.

(** A literal that [float] reads has a digit. *)
Lemma float_literal_has_a_digit s :
  Py.float_literal s = true -> PyStr.any_char PyStr.isdecimal s = true.
Proof.
  unfold Py.float_literal. intros H. apply unsigned_any.
  destruct (Py.skip_decimals (Py.unsigned s)) as [|c frac] eqn:E.
  - apply negb_true_iff in H. apply skip_decimals_shorter. rewrite E. exact H.
  - apply andb_true_iff in H as [H Hsome].
    apply andb_true_iff in H as [_ Hfrac].
    apply orb_true_iff in Hsome as [Hint|Hfrac'].
    + apply negb_true_iff in Hint. apply skip_decimals_shorter.
      rewrite E. exact Hint.
    + apply skip_decimals_any. rewrite E. cbn [PyStr.any_char].
      rewrite (all_decimals_any frac).
      * apply orb_true_r.
      * apply empty_of_length, Hfrac.
      * apply negb_true_iff, Hfrac'.
Qed.

Lemma split_is_not_empty sep s : RoutingServer.split sep s <> [].
Proof.
  destruct s as [|c s]; simpl; [discriminate|].
  destruct (Ascii.eqb c sep); [discriminate|].
  destruct (RoutingServer.split sep s); discriminate.
Qed.

Lemma split_without_separator sep s :
  PyStr.all_char (fun c => negb (Ascii.eqb c sep)) s = true ->
  RoutingServer.split sep s = [s].
Proof.
  induction s as [|c s IH]; simpl; auto.
  intros H. apply andb_true_iff in H as [Hc Hs]. apply negb_true_iff in Hc.
  rewrite Hc, (IH Hs). reflexivity.
Qed.

Lemma split_at_first_separator sep a rest :
  PyStr.all_char (fun c => negb (Ascii.eqb c sep)) a = true ->
  RoutingServer.split sep (a ++ String sep rest)
  = a :: RoutingServer.split sep rest.
Proof.
  induction a as [|c a IH]; simpl.
  - rewrite Ascii.eqb_refl. reflexivity.
  - intros H. apply andb_true_iff in H as [Hc Ha]. apply negb_true_iff in Hc.
    rewrite Hc, (IH Ha). reflexivity.
Qed.

Lemma rstrip_without_space s :
  PyStr.all_char (fun c => negb (PyStr.isspace c)) s = true ->
  PyStr.rstrip s = s.
Proof.
  induction s as [|c s IH]; simpl; auto.
  intros H. apply andb_true_iff in H as [Hc Hs]. apply negb_true_iff in Hc.
  rewrite (IH Hs), Hc. destruct s; reflexivity.
Qed.

Lemma strip_after_blanks pad s :
  PyStr.all_char is_blank pad = true ->
  PyStr.all_char (fun c => negb (PyStr.isspace c)) s = true ->
  PyStr.strip (pad ++ s) = s.
Proof.
  intros Hpad Hs. unfold PyStr.strip.
  assert (Hl : PyStr.lstrip (pad ++ s) = s).
  { induction pad as [|c pad IH]; simpl.
    - destruct s as [|c s]; simpl; auto. simpl in Hs.
      apply andb_true_iff in Hs as [Hc _]. apply negb_true_iff in Hc.
      rewrite Hc. reflexivity.
    - simpl in Hpad. apply andb_true_iff in Hpad as [Hc Hpad].
      unfold is_blank in Hc. apply Ascii.eqb_eq in Hc. subst c.
      change (PyStr.isspace " "%char) with true. cbv iota. auto. }
  rewrite Hl. apply rstrip_without_space, Hs.
Qed.

Lemma plain_has_no_space s :
  PyStr.all_char plain_char s = true ->
  PyStr.all_char (fun c => negb (PyStr.isspace c)) s = true.
Proof.
  apply all_char_impl. intros c Hc.
  destruct (plain_char_facts _ Hc) as [-> _]. reflexivity.
Qed.

Lemma plain_has_no_comma s :
  PyStr.all_char plain_char s = true ->
  PyStr.all_char (fun c => negb (Ascii.eqb c ","%char)) s = true.
Proof.
  apply all_char_impl. intros c Hc.
  destruct (plain_char_facts _ Hc) as (_ & -> & _). reflexivity.
Qed.

Lemma startswith_nothing s : PyStr.startswith s EmptyString = true.
Proof. destruct s; reflexivity. Qed.

Lemma contains_after p a b :
  PyStr.contains p b = true -> PyStr.contains p (a ++ b) = true.
Proof.
  intros H. induction a as [|c a IH]; simpl; auto.
  rewrite IH. apply orb_true_r.
Qed.

(** X14: a text of two plain coordinates with a comma between them,
    blanks allowed after the comma, is read by [get_coords] as that pair of
    floats, whatever the address lookup would do: no lookup is made. *)
Theorem plain_coordinates_are_read_locally geocode a pad b :
  plain_coordinate a = true ->
  plain_coordinate b = true ->
  PyStr.all_char is_blank pad = true ->
  RoutingServer.get_coords geocode (a ++ "," ++ pad ++ b)
  = Ok (VFloat a, VFloat b).
Proof.
  intros Ha Hb Hpad.
  apply andb_true_iff in Ha as [Hfa Hpa]. apply andb_true_iff in Hb as [Hfb Hpb].
  unfold RoutingServer.get_coords.
  assert (Hlooks : RoutingServer.looks_like_coordinates (a ++ "," ++ pad ++ b)
                   = true).
  { unfold RoutingServer.looks_like_coordinates, RoutingServer.isdigit.
    fold (cleaned (a ++ "," ++ pad ++ b)).
    rewrite (contains_after "," a ("," ++ pad ++ b))
      by (cbn [append PyStr.contains PyStr.startswith];
          rewrite startswith_nothing; reflexivity).
    rewrite cleaned_is_digits, cleaned_keeps_a_digit; [reflexivity| |].
    - rewrite any_char_app, (float_literal_has_a_digit _ Hfa). reflexivity.
    - set (q := fun c => plain_char c || Ascii.eqb c ","%char
                        || Ascii.eqb c " "%char).
      assert (Hqa : PyStr.all_char q a = true).
      { revert Hpa. apply all_char_impl. intros c H. unfold q.
        rewrite H. reflexivity. }
      assert (Hqb : PyStr.all_char q b = true).
      { revert Hpb. apply all_char_impl. intros c H. unfold q.
        rewrite H. reflexivity. }
      assert (Hqp : PyStr.all_char q pad = true).
      { revert Hpad. apply all_char_impl. intros c H. unfold q.
        unfold is_blank in H. rewrite H. apply orb_true_r. }
      rewrite all_char_app. cbn [append PyStr.all_char].
      rewrite all_char_app, Hqa, Hqb, Hqp. reflexivity. }
  rewrite Hlooks.
  change (a ++ "," ++ pad ++ b)%string
    with (a ++ String ","%char (pad ++ b))%string.
  rewrite (split_at_first_separator ","%char a (pad ++ b)
             (plain_has_no_comma a Hpa)).
  rewrite split_without_separator.
  2: { rewrite all_char_app, (plain_has_no_comma b Hpb), andb_true_r.
       revert Hpad. apply all_char_impl. intros c Hc.
       unfold is_blank in Hc. apply Ascii.eqb_eq in Hc. subst c. reflexivity. }
  unfold Py.item. cbn [nth_error Exc.of_option Exc.bind].
  pose proof (strip_after_blanks EmptyString a eq_refl (plain_has_no_space a Hpa))
    as Hsa. cbn [append] in Hsa. rewrite Hsa.
  rewrite (float_of_literal _ Hfa). cbn [Exc.bind].
  rewrite (strip_after_blanks pad b Hpad (plain_has_no_space b Hpb)).
  rewrite (float_of_literal _ Hfb). reflexivity.
Qed.

Lemma plain_coordinates_are_read_locally_witness :
  RoutingServer.get_coords (fun s => Raise ("Could not geocode: " ++ s))
    ("33.8938" ++ "," ++ " " ++ "-35.5")
  = Ok (VFloat "33.8938", VFloat "-35.5").
Proof.
  apply plain_coordinates_are_read_locally; reflexivity.
Defined.

(** X15: a start text that passes the coordinate test and whose first
    part is not a number [float] reads makes [_fastest_route] return a
    failure mapping that quotes the part and repeats both texts; no route is
    computed and nothing is raised. *)
Theorem malformed_coordinates_fail_softly
  geocode _get_route start finish part0 parts :
  RoutingServer.looks_like_coordinates start = true ->
  RoutingServer.split ","%char start = part0 :: parts ->
  Py.float_literal (PyStr.strip part0) = false ->
  RoutingServer._fastest_route geocode _get_route start finish
  = VDict [("success", VBool false);
           ("error",
            VStr ("Fastest route error: could not convert string to float: '"
                  ++ PyStr.strip part0 ++ "'"));
           ("start", VStr start); ("end", VStr finish)].
Proof.
  intros Hlooks Hsplit Hbad.
  unfold RoutingServer._fastest_route, RoutingServer.get_coords at 1.
  rewrite Hlooks, Hsplit. unfold Py.item. cbn [nth_error Exc.of_option Exc.bind].
  unfold Py.float. rewrite Hbad. reflexivity.
Qed.

Lemma malformed_coordinates_fail_softly_witness :
  RoutingServer._fastest_route (fun s => Raise ("Could not geocode: " ++ s))
    (fun a b c d => VDict [("success", VBool true)]) "10-20, 35.5" "Tripoli"
  = VDict [("success", VBool false);
           ("error",
            VStr ("Fastest route error: could not convert string to float: '"
                  ++ PyStr.strip "10-20" ++ "'"));
           ("start", VStr "10-20, 35.5"); ("end", VStr "Tripoli")].
Proof.
  apply (@malformed_coordinates_fail_softly
           (fun s => Raise ("Could not geocode: " ++ s))
           (fun a b c d => VDict [("success", VBool true)])
           "10-20, 35.5" "Tripoli" "10-20" [" 35.5"]);
    reflexivity.
Defined.

Lemma assoc_set_item_same items k v :
  Py.assoc k (Json.set_item items k v) = Some v.
Proof.
  induction items as [|[k' v'] items IH]; simpl.
  - rewrite String.eqb_refl. reflexivity.
  - destruct (String.eqb k' k) eqn:E; simpl; rewrite E; auto.
Qed.

Lemma assoc_set_item_other items k v k' :
  k' <> k ->
  Py.assoc k' (Json.set_item items k v) = Py.assoc k' items.
Proof.
  intros Hne. induction items as [|[k0 v0] items IH]; simpl.
  - apply String.eqb_neq in Hne. rewrite String.eqb_sym, Hne. reflexivity.
  - destruct (String.eqb k0 k) eqn:E; simpl.
    + apply String.eqb_eq in E. subst k0.
      apply String.eqb_neq in Hne. rewrite String.eqb_sym, Hne. reflexivity.
    + rewrite IH. reflexivity.
Qed.



(** ** The extractors *)

Lemma digit_value_bounds c :
  PyStr.isdecimal c = true -> (0 <= Py.digit_value c <= 9)%Z.
Proof.
  unfold PyStr.isdecimal, PyStr.between, Py.digit_value. intros H.
  apply andb_true_iff in H as [Hlo Hhi].
  apply Nat.leb_le in Hlo, Hhi. lia.
Qed.

Lemma decimal_value_not_negative s :
  forall acc,
    PyStr.all_char PyStr.isdecimal s = true ->
    (0 <= acc)%Z -> (0 <= Py.decimal_value acc s)%Z.
Proof.
  induction s as [|c s IH]; cbn [Py.decimal_value PyStr.all_char];
    intros acc H Hacc; [exact Hacc|].
  apply andb_true_iff in H as [Hc Hs].
  apply IH; [exact Hs|]. pose proof (digit_value_bounds c Hc). lia.
Qed.


Section MatchedCharacters.

Variable P : ascii -> bool.
Variable p : ascii -> bool.
Variable k : string -> option Re.segments.
Hypothesis k_keeps :
  forall s segs,
    PyStr.all_char P s = true -> k s = Some segs ->
    Forall (fun seg => PyStr.all_char P seg = true) segs.

Lemma empty_then_keeps s segs :
  PyStr.all_char P s = true ->
  Re.empty_then (k s) = Some segs ->
  Forall (fun seg => PyStr.all_char P seg = true) segs.
Proof.
  intros Hs. unfold Re.empty_then.
  destruct (k s) as [rest|] eqn:E; simpl; intros H; [|discriminate].
  injection H as <-. constructor; [reflexivity|]. eapply k_keeps; eauto.
Qed.

Lemma push_keeps c r segs :
  P c = true ->
  (forall segs', r = Some segs' ->
                 Forall (fun seg => PyStr.all_char P seg = true) segs') ->
  Re.push c r = Some segs ->
  Forall (fun seg => PyStr.all_char P seg = true) segs.
Proof.
  intros Hc Hr H. destruct (push_some _ _ H) as (seg & rest & -> & ->).
  specialize (Hr _ eq_refl). inversion Hr; subst.
  constructor; [|assumption]. simpl. rewrite Hc. assumption.
Qed.

Lemma one_keeps s segs :
  PyStr.all_char P s = true ->
  Re.one p k s = Some segs ->
  Forall (fun seg => PyStr.all_char P seg = true) segs.
Proof.
  destruct s as [|c s]; simpl; [discriminate|]. intros Hs.
  apply andb_true_iff in Hs as [Hc Hs].
  destruct (p c); [|discriminate].
  destruct (k s) as [rest|] eqn:E; simpl; intros H; [|discriminate].
  injection H as <-. constructor; [simpl; rewrite Hc; reflexivity|].
  eapply k_keeps; eauto.
Qed.

Lemma star_keeps s :
  forall segs,
    PyStr.all_char P s = true ->
    Re.star p k s = Some segs ->
    Forall (fun seg => PyStr.all_char P seg = true) segs.
Proof.
  induction s as [|c s IH]; intros segs Hs H.
  - eapply empty_then_keeps; eauto.
  - pose proof Hs as Hall. cbn [PyStr.all_char] in Hs.
    apply andb_true_iff in Hs as [Hc Hs]. cbn [Re.star] in H.
    destruct (p c).
    + unfold Re.orelse in H.
      destruct (Re.push c (Re.star p k s)) as [r|] eqn:E.
      * injection H as <-. eapply push_keeps; eauto.
      * eapply empty_then_keeps; eauto.
    + eapply empty_then_keeps; eauto.
Qed.

Lemma plus_keeps s segs :
  PyStr.all_char P s = true ->
  Re.plus p k s = Some segs ->
  Forall (fun seg => PyStr.all_char P seg = true) segs.
Proof.
  destruct s as [|c s]; simpl; [discriminate|]. intros Hs.
  apply andb_true_iff in Hs as [Hc Hs].
  destruct (p c); [|discriminate].
  intros H. apply (@push_keeps c (Re.star p k s) segs Hc); [|exact H].
  intros segs' Hr. eapply star_keeps; eauto.
Qed.

Lemma lazy_star_keeps s :
  forall segs,
    PyStr.all_char P s = true ->
    Re.lazy_star p k s = Some segs ->
    Forall (fun seg => PyStr.all_char P seg = true) segs.
Proof.
  induction s as [|c s IH]; intros segs Hs H;
    cbn [Re.lazy_star] in H; unfold Re.orelse in H.
  - destruct (Re.empty_then (k EmptyString)) as [r|] eqn:E; [|discriminate].
    injection H as <-. eapply empty_then_keeps; eauto.
  - destruct (Re.empty_then (k (String c s))) as [r|] eqn:E.
    + injection H as <-. eapply empty_then_keeps; eauto.
    + cbn [PyStr.all_char] in Hs. apply andb_true_iff in Hs as [Hc Hs].
      destruct (p c); [|discriminate].
      eapply push_keeps; eauto.
Qed.

Lemma lazy_plus_keeps s segs :
  PyStr.all_char P s = true ->
  Re.lazy_plus p k s = Some segs ->
  Forall (fun seg => PyStr.all_char P seg = true) segs.
Proof.
  destruct s as [|c s]; simpl; [discriminate|]. intros Hs.
  apply andb_true_iff in Hs as [Hc Hs].
  destruct (p c); [|discriminate].
  intros H. apply (@push_keeps c (Re.lazy_star p k s) segs Hc); [|exact H].
  intros segs' Hr. eapply lazy_star_keeps; eauto.
Qed.

End MatchedCharacters.

(** The texts a match consumes are made of characters of the text. *)
Lemma match_here_keeps P pat :
  forall s segs,
    PyStr.all_char P s = true -> Re.match_here pat s = Some segs ->
    Forall (fun seg => PyStr.all_char P seg = true) segs.
Proof.
  induction pat as [|it rest IH]; simpl; intros s segs Hs H.
  - injection H as <-. constructor.
  - destruct it.
    + eapply one_keeps; eauto.
    + unfold Re.opt, Re.orelse in H.
      destruct (Re.one p (Re.match_here rest) s) eqn:E.
      * injection H as <-. eapply one_keeps; eauto.
      * eapply empty_then_keeps; eauto.
    + eapply star_keeps; eauto.
    + eapply plus_keeps; eauto.
    + eapply lazy_plus_keeps; eauto.
    + eapply empty_then_keeps; eauto.
    + eapply empty_then_keeps; eauto.
Qed.

Lemma search_keeps P pat :
  forall s segs,
    PyStr.all_char P s = true -> Re.search pat s = Some segs ->
    Forall (fun seg => PyStr.all_char P seg = true) segs.
Proof.
  induction s as [|c s IH]; simpl; intros segs Hs H; unfold Re.orelse in H.
  - destruct (Re.match_here pat EmptyString) eqn:E; [|discriminate].
    injection H as <-. eapply (match_here_keeps P pat EmptyString); eauto.
  - destruct (Re.match_here pat (String c s)) eqn:E.
    + injection H as <-. eapply (match_here_keeps P pat (String c s)); eauto.
    + apply andb_true_iff in Hs as [_ Hs]. auto.
Qed.

Lemma group_from_keeps P g :
  forall pat inside segs,
    Forall (fun seg => PyStr.all_char P seg = true) segs ->
    PyStr.all_char P (Re.group_from g inside pat segs) = true.
Proof.
  induction pat as [|it pat IH]; intros inside segs Hsegs; [reflexivity|].
  destruct segs as [|seg segs]; [destruct it; reflexivity|].
  inversion Hsegs; subst.
  destruct it; cbn [Re.group_from]; auto;
    rewrite all_char_app, IH by assumption;
    destruct inside; simpl; rewrite ?andb_true_r; auto.
Qed.

Lemma lstrip_keeps P s :
  PyStr.all_char P s = true -> PyStr.all_char P (PyStr.lstrip s) = true.
Proof.
  induction s as [|c s IH]; simpl; auto.
  intros H. destruct (PyStr.isspace c); [|exact H].
  apply andb_true_iff in H as [_ H]. auto.
Qed.

Lemma rstrip_keeps P s :
  PyStr.all_char P s = true -> PyStr.all_char P (PyStr.rstrip s) = true.
Proof.
  induction s as [|c s IH]; simpl; auto.
  intros H. apply andb_true_iff in H as [Hc Hs]. specialize (IH Hs).
  destruct (PyStr.rstrip s) as [|d r].
  - destruct (PyStr.isspace c); simpl; rewrite ?Hc; reflexivity.
  - cbn [PyStr.all_char]. rewrite Hc. exact IH.
Qed.

Lemma lower_char_is_lower c : is_lower (PyStr.lower_char c) = true.
Proof. destruct c as [[] [] [] [] [] [] [] []]; vm_compute; reflexivity. Qed.

Lemma lower_is_lower s : PyStr.all_char is_lower (PyStr.lower s) = true.
Proof.
  induction s as [|c s IH]; simpl; auto.
  rewrite lower_char_is_lower, IH. reflexivity.
Qed.

Lemma lower_of_lower s :
  PyStr.all_char is_lower s = true -> PyStr.lower s = s.
Proof.
  induction s as [|c s IH]; simpl; auto.
  intros H. apply andb_true_iff in H as [Hc Hs].
  unfold is_lower in Hc. apply Ascii.eqb_eq in Hc. rewrite Hc, (IH Hs).
  reflexivity.
Qed.

(** X18: the two place names that [_extract_two_locations] finds in a
    query are in lower case, whatever the case they were typed in; only the
    fall-back pair, used when the query has no "from ... to ...", is
    capitalised. *)
Theorem found_locations_are_lower_case query :
  exists start finish,
    Router._extract_two_locations query
    = VDict [("start", VStr start); ("end", VStr finish)]
    /\ ((Re.search Router.from_to_pattern (PyStr.lower query) = None
         /\ start = "Beirut" /\ finish = "Tripoli")
        \/ (Re.search Router.from_to_pattern (PyStr.lower query) <> None
            /\ PyStr.lower start = start /\ PyStr.lower finish = finish)).
Proof.
  unfold Router._extract_two_locations.
  destruct (Re.search Router.from_to_pattern (PyStr.lower query)) as [m|] eqn:E.
  - do 2 eexists. split; [reflexivity|]. right. split; [discriminate|].
    pose proof (search_keeps is_lower _ _ (lower_is_lower query) E) as Hm.
    split; apply lower_of_lower; unfold PyStr.strip, Re.group;
      apply rstrip_keeps, lstrip_keeps, group_from_keeps, Hm.
  - do 2 eexists. split; [reflexivity|]. left. auto.
Qed.

Lemma rstrip_rstrip s : PyStr.rstrip (PyStr.rstrip s) = PyStr.rstrip s.
Proof.
  induction s as [|c s IH]; simpl; auto.
  destruct (PyStr.rstrip s) as [|d r] eqn:E.
  - destruct (PyStr.isspace c) eqn:Hc; simpl; rewrite ?Hc; reflexivity.
  - cbn [PyStr.rstrip]. cbn [PyStr.rstrip] in IH. rewrite IH. reflexivity.
Qed.

Lemma lstrip_of_rstrip_of_lstrip s :
  PyStr.lstrip (PyStr.rstrip (PyStr.lstrip s)) = PyStr.rstrip (PyStr.lstrip s).
Proof.
  induction s as [|c s IH]; simpl; auto.
  destruct (PyStr.isspace c) eqn:Hc; [exact IH|].
  cbn [PyStr.rstrip]. destruct (PyStr.rstrip s) as [|d r].
  - rewrite Hc. simpl. rewrite Hc. reflexivity.
  - simpl. rewrite Hc. reflexivity.
Qed.

Lemma strip_strip s : PyStr.strip (PyStr.strip s) = PyStr.strip s.
Proof.
  unfold PyStr.strip. rewrite lstrip_of_rstrip_of_lstrip. apply rstrip_rstrip.
Qed.

(** X19: the address that the lookup rule extracts and the location that
    the weather rule extracts never begin or end with a blank: stripping
    them again changes nothing. *)
Theorem extracted_texts_are_stripped query :
  PyStr.strip (Router._extract_address query) = Router._extract_address query
  /\ exists location,
       Router._extract_location query = Ok location
       /\ PyStr.strip location = location.
Proof.
  split.
  - unfold Router._extract_address.
    destruct (Router.first_prefix _ _); apply strip_strip.
  - unfold Router._extract_location.
    destruct (Router.first_contained _ _) as [prefix|] eqn:E.
    + apply first_contained_in, contains_index in E as [n ->].
      cbn [Exc.of_option Exc.bind]. eexists. split; [reflexivity|].
      apply strip_strip.
    + eexists. split; [reflexivity|]. apply strip_strip.
Qed.

(** ** Letter case and the choice of the tool *)

Lemma push_lowered c r :
  Re.push (PyStr.lower_char c) (lowered r) = lowered (Re.push c r).
Proof. destruct r as [[|seg segs]|]; reflexivity. Qed.

Lemma empty_then_lowered r :
  Re.empty_then (lowered r) = lowered (Re.empty_then r).
Proof. destruct r; reflexivity. Qed.

Lemma orelse_lowered a b :
  Re.orelse (lowered a) (lowered b) = lowered (Re.orelse a b).
Proof. destruct a; reflexivity. Qed.

Section LoweredMatch.

Variable p : ascii -> bool.
Variable k : string -> option Re.segments.
Hypothesis p_blind : case_blind p.
Hypothesis k_lowered : forall s, k (PyStr.lower s) = lowered (k s).

Lemma one_lowered s : Re.one p k (PyStr.lower s) = lowered (Re.one p k s).
Proof.
  destruct s as [|c s]; [reflexivity|]. cbn [PyStr.lower Re.one].
  rewrite p_blind. destruct (p c); [|reflexivity].
  rewrite k_lowered. destruct (k s); reflexivity.
Qed.

Lemma opt_lowered s : Re.opt p k (PyStr.lower s) = lowered (Re.opt p k s).
Proof.
  unfold Re.opt. rewrite one_lowered, k_lowered, empty_then_lowered.
  apply orelse_lowered.
Qed.

Lemma star_lowered s : Re.star p k (PyStr.lower s) = lowered (Re.star p k s).
Proof.
  induction s as [|c s IH].
  - cbn [PyStr.lower Re.star].
    change EmptyString with (PyStr.lower EmptyString) at 1.
    rewrite k_lowered. apply empty_then_lowered.
  - cbn [PyStr.lower Re.star]. rewrite p_blind.
    change (String (PyStr.lower_char c) (PyStr.lower s))
      with (PyStr.lower (String c s)).
    rewrite k_lowered, empty_then_lowered.
    destruct (p c); [|reflexivity].
    rewrite IH, push_lowered. apply orelse_lowered.
Qed.

Lemma plus_lowered s : Re.plus p k (PyStr.lower s) = lowered (Re.plus p k s).
Proof.
  destruct s as [|c s]; [reflexivity|]. cbn [PyStr.lower Re.plus].
  rewrite p_blind. destruct (p c); [|reflexivity].
  rewrite star_lowered. apply push_lowered.
Qed.

Lemma lazy_star_lowered s :
  Re.lazy_star p k (PyStr.lower s) = lowered (Re.lazy_star p k s).
Proof.
  induction s as [|c s IH].
  - cbn [PyStr.lower Re.lazy_star].
    change EmptyString with (PyStr.lower EmptyString) at 1.
    rewrite k_lowered, empty_then_lowered.
    change (@None Re.segments) with (lowered None) at 1.
    apply orelse_lowered.
  - cbn [PyStr.lower Re.lazy_star]. rewrite p_blind.
    change (String (PyStr.lower_char c) (PyStr.lower s))
      with (PyStr.lower (String c s)).
    rewrite k_lowered, empty_then_lowered.
    destruct (p c).
    + rewrite IH, push_lowered. apply orelse_lowered.
    + change (@None Re.segments) with (lowered None) at 1.
      apply orelse_lowered.
Qed.

Lemma lazy_plus_lowered s :
  Re.lazy_plus p k (PyStr.lower s) = lowered (Re.lazy_plus p k s).
Proof.
  destruct s as [|c s]; [reflexivity|]. cbn [PyStr.lower Re.lazy_plus].
  rewrite p_blind. destruct (p c); [|reflexivity].
  rewrite lazy_star_lowered. apply push_lowered.
Qed.

End LoweredMatch.

Lemma match_here_lowered pat :
  Forall item_case_blind pat ->
  forall s, Re.match_here pat (PyStr.lower s) = lowered (Re.match_here pat s).
Proof.
  induction 1 as [|it rest Hit _ IH]; intros s; [reflexivity|].
  cbn [Re.match_here]. destruct it; cbn [item_case_blind] in Hit.
  - apply one_lowered; assumption.
  - apply opt_lowered; assumption.
  - apply star_lowered; assumption.
  - apply plus_lowered; assumption.
  - apply lazy_plus_lowered; assumption.
  - rewrite IH. apply empty_then_lowered.
  - rewrite IH. apply empty_then_lowered.
Qed.

Lemma length_lower s : String.length (PyStr.lower s) = String.length s.
Proof. induction s; simpl; congruence. Qed.

Lemma matched_length_lower segs :
  Re.matched_length (map PyStr.lower segs) = Re.matched_length segs.
Proof.
  unfold Re.matched_length.
  induction segs as [|seg segs IH]; [reflexivity|].
  destruct segs as [|seg' segs].
  - simpl. apply length_lower.
  - change (String.concat EmptyString (map PyStr.lower (seg :: seg' :: segs)))
      with (PyStr.lower seg
            ++ String.concat EmptyString (map PyStr.lower (seg' :: segs)))%string.
    change (String.concat EmptyString (seg :: seg' :: segs))
      with (seg ++ String.concat EmptyString (seg' :: segs))%string.
    rewrite !length_append, length_lower, IH. reflexivity.
Qed.

Lemma findall_from_lowered pat :
  Forall item_case_blind pat ->
  forall s skip,
    Re.findall_from pat skip (PyStr.lower s)
    = map (map PyStr.lower) (Re.findall_from pat skip s).
Proof.
  intros Hpat. induction s as [|c s IH]; intros skip.
  - destruct skip; [|reflexivity]. cbn [PyStr.lower Re.findall_from].
    change EmptyString with (PyStr.lower EmptyString) at 1.
    rewrite (match_here_lowered Hpat).
    destruct (Re.match_here pat EmptyString); reflexivity.
  - destruct skip as [|skip]; cbn [PyStr.lower Re.findall_from]; [|apply IH].
    change (String (PyStr.lower_char c) (PyStr.lower s))
      with (PyStr.lower (String c s)).
    rewrite (match_here_lowered Hpat).
    destruct (Re.match_here pat (String c s)) as [segs|]; cbn [lowered option_map].
    + cbn [map]. rewrite matched_length_lower, IH. reflexivity.
    + apply IH.
Qed.

Lemma blind_classes :
  case_blind PyStr.isdecimal /\ case_blind PyStr.isspace
  /\ case_blind PyStr.isdigit
  /\ case_blind (Re.chr "-"%char) /\ case_blind (Re.chr "."%char)
  /\ case_blind (Re.chr ","%char).
Proof.
  repeat split; intros c;
    destruct c as [[] [] [] [] [] [] [] []]; vm_compute; reflexivity.
Qed.

Lemma coord_pattern_is_case_blind : Forall item_case_blind Router.coord_pattern.
Proof.
  destruct blind_classes as (Hd & Hs & _ & Hm & Hp & Hc).
  unfold Router.coord_pattern, Router.number. cbn [app].
  repeat constructor; assumption.
Qed.

Lemma coords_found_count_lower query :
  List.length (Router.coords_found (PyStr.lower query))
  = List.length (Router.coords_found query).
Proof.
  unfold Router.coords_found, Re.findall.
  rewrite (findall_from_lowered coord_pattern_is_case_blind).
  rewrite !length_map. reflexivity.
Qed.

Lemma any_digit_lower s :
  PyStr.any_char PyStr.isdigit (PyStr.lower s)
  = PyStr.any_char PyStr.isdigit s.
Proof.
  destruct blind_classes as (_ & _ & Hd & _).
  induction s as [|c s IH]; simpl; auto. rewrite Hd, IH. reflexivity.
Qed.

Lemma contains_comma_lower s :
  PyStr.contains "," (PyStr.lower s) = PyStr.contains "," s.
Proof.
  destruct blind_classes as (_ & _ & _ & _ & _ & Hc).
  induction s as [|c s IH]; [reflexivity|].
  cbn [PyStr.lower PyStr.contains PyStr.startswith].
  rewrite !startswith_nothing, IH.
  unfold case_blind, Re.chr in Hc. rewrite Hc. reflexivity.
Qed.

Lemma lower_lower s : PyStr.lower (PyStr.lower s) = PyStr.lower s.
Proof. apply lower_of_lower, lower_is_lower. Qed.

(** The conditions on which the router chooses, as far as they look at the
    query itself rather than at its lower-case form. *)
Lemma same_lower_same_conditions q1 q2 :
  PyStr.lower q1 = PyStr.lower q2 ->
  List.length (Router.coords_found q1) = List.length (Router.coords_found q2)
  /\ PyStr.any_char PyStr.isdigit q1 && PyStr.contains "," q1
     = PyStr.any_char PyStr.isdigit q2 && PyStr.contains "," q2.
Proof.
  intros H. split.
  - rewrite <- (coords_found_count_lower q1), <- (coords_found_count_lower q2), H.
    reflexivity.
  - rewrite <- (any_digit_lower q1), <- (contains_comma_lower q1), H.
    rewrite any_digit_lower, contains_comma_lower. reflexivity.
Qed.



(** ** Further edges of the loop, the session and the router *)

(** X21: when the argument text of a request is not valid JSON, the
    requests before it in the same completion are answered, each by one
    tool-result message, and the loop over the requests ends there with the
    exception of [json.loads]: the malformed request and those after it get
    no result and cause no server call. *)
Theorem malformed_request_stops_the_answers
  server json_loads json_dumps good bad rest e w :
  Forall (fun tc => exists v, json_loads (tc_arguments tc) = Ok v) good ->
  json_loads (tc_arguments bad) = Raise e ->
  exists msgs cs,
    run_tool_calls server json_loads json_dumps (good ++ bad :: rest) w
    = (Raise e, World (history w ++ msgs) (queries w) (calls w ++ cs))
    /\ answers good msgs
    /\ List.length cs <= List.length good.
Proof.
  intros Hgood Hbad. revert w.
  induction Hgood as [|tc good [v Hv] _ IH]; intros w.
  - exists [], []. rewrite !app_nil_r. cbn [app run_tool_calls].
    unfold Eff.bind, Eff.lift. rewrite Hbad. destruct w.
    split; [reflexivity|]. split; [constructor|simpl; lia].
  - cbn [app run_tool_calls]. unfold Eff.bind at 1, Eff.lift. rewrite Hv.
    unfold Eff.bind at 1.
    destruct (call_tool_calls_at_most_once server (tc_name tc) v w)
      as (r & cs & -> & Hcs).
    unfold Eff.bind at 1, Eff.append. cbn [history queries calls].
    destruct (IH (World (history w ++ [Tool (tc_id tc) (tc_name tc) (json_dumps r)])
                    (queries w) (calls w ++ cs)))
      as (msgs & cs' & -> & Hans & Hlen).
    cbn [history queries calls].
    exists (Tool (tc_id tc) (tc_name tc) (json_dumps r) :: msgs), (cs ++ cs').
    rewrite <- !app_assoc. split; [reflexivity|]. split.
    + constructor; eauto.
    + rewrite length_app. simpl. lia.
Qed.

Lemma malformed_request_stops_the_answers_witness :
  exists msgs cs,
    run_tool_calls (Stub.replies Stub.found) Json.loads Json.dumps
      ([Stub.geocode_aub] ++ Stub.cut_off :: [Stub.search_cafes])
      Stub.empty_world
    = (Raise "Expecting value", World ([] ++ msgs) [] ([] ++ cs))
    /\ answers [Stub.geocode_aub] msgs
    /\ List.length cs <= List.length [Stub.geocode_aub].
Proof.
  apply (@malformed_request_stops_the_answers (Stub.replies Stub.found)
           Json.loads Json.dumps [Stub.geocode_aub] Stub.cut_off
           [Stub.search_cafes] "Expecting value" Stub.empty_world).
  - repeat constructor. eexists. vm_compute. reflexivity.
  - vm_compute. reflexivity.
Defined.

(** X22: a line that is empty or made of blanks is skipped by the session:
    it sends nothing to the model and leaves the history as it is. *)
Theorem blank_line_is_skipped
  server engine json_loads json_dumps line before after w :
  String.length (PyStr.strip line) = 0 ->
  run server engine json_loads json_dumps (before ++ Typed line :: after) w
  = run server engine json_loads json_dumps (before ++ after) w.
Proof.
  intros Hblank. unfold run.
  generalize (World [System system_prompt] (queries w) (calls w)).
  induction before as [|[typed|] before IH]; intros w0; cbn [app run_loop].
  - rewrite Hblank. reflexivity.
  - destruct (String.length (PyStr.strip typed) =? 0)%nat; [apply IH|].
    destruct (is_quit (PyStr.strip typed)); [reflexivity|].
    unfold Eff.bind at 1 3.
    destruct (shown _ w0) as [[response|e] w1]; [|reflexivity].
    unfold Eff.bind. rewrite IH. reflexivity.
  - reflexivity.
Qed.

Lemma blank_line_is_skipped_witness :
  run (Stub.replies Stub.found) (Stub.answers_at_once "Sunny.")
      Json.loads Json.dumps
      ([Typed "weather in Beirut?"] ++ Typed "   " :: [Typed "quit"])
      Stub.empty_world
  = run (Stub.replies Stub.found) (Stub.answers_at_once "Sunny.")
      Json.loads Json.dumps
      ([Typed "weather in Beirut?"] ++ [Typed "quit"])
      Stub.empty_world.
Proof.
  apply (@blank_line_is_skipped (Stub.replies Stub.found)
           (Stub.answers_at_once "Sunny.") Json.loads Json.dumps "   ").
  reflexivity.
Defined.

(** X23: a query that reaches the routing rule and is not about the
    fastest or quickest route gets the fixed pair, Beirut to Tripoli, unless
    it contains "distance" and at least two coordinate pairs: coordinates
    typed in a route query, or a single pair in a distance query, are not
    used. *)
Theorem routing_rule_falls_back_to_fixed_pair query :
  PyStr.any_in Router.geo_words (PyStr.lower query) = false ->
  PyStr.any_in Router.poi_words (PyStr.lower query) = false ->
  PyStr.any_in Router.routing_words (PyStr.lower query) = true ->
  PyStr.contains "fastest" (PyStr.lower query) = false ->
  PyStr.contains "quickest" (PyStr.lower query) = false ->
  PyStr.contains "distance" (PyStr.lower query) = false
  \/ List.length (Router.coords_found query) < 2 ->
  Router._route_query query
  = Ok ("routing",
        if PyStr.contains "distance" (PyStr.lower query)
        then "get_distance" else "get_route",
        VDict [("start_lat", VFloat "33.8938"); ("start_lon", VFloat "35.5018");
               ("end_lat", VFloat "34.4344"); ("end_lon", VFloat "35.8444")]).
Proof.
  intros Hgeo Hpoi Hrouting Hfast Hquick Hfallback.
  unfold Router._route_query. rewrite Hgeo, Hpoi, Hrouting, Hfast, Hquick.
  cbn [orb].
  destruct (PyStr.contains "distance" (PyStr.lower query)); [|reflexivity].
  destruct Hfallback as [Hd|Hfew]; [discriminate Hd|].
  apply Nat.leb_gt in Hfew. rewrite Hfew. reflexivity.
Qed.

Lemma routing_rule_falls_back_to_fixed_pair_witness :
  Router._route_query "Get route from 33.9,35.5 to 34.4,35.8"
  = Ok ("routing",
        if PyStr.contains "distance"
             (PyStr.lower "Get route from 33.9,35.5 to 34.4,35.8")
        then "get_distance" else "get_route",
        VDict [("start_lat", VFloat "33.8938"); ("start_lon", VFloat "35.5018");
               ("end_lat", VFloat "34.4344"); ("end_lon", VFloat "35.8444")]).
Proof.
  apply routing_rule_falls_back_to_fixed_pair;
    try (vm_compute; reflexivity).
  left. vm_compute. reflexivity.
Defined.
